(** * Exa research tools: the polling protocol and the tool registry

    A shallow embedding of the [deep_research_exa] and
    [check_research_status_exa] tool handlers (tools/research.ts), of the
    constants they read (tools/config.ts), of the response type they decode
    (types.ts) and of the tool selection of the two server entry points
    (index.ts), followed by the properties of the poller, of the result
    formatter and of the registry.

    Strings are byte strings, JavaScript numbers that the handlers print or
    compare are integers, and logging is left out: the logger never changes
    what a handler returns. *)

From stdpp Require Import gmap strings list pretty.

Local Open Scope N_scope.
Local Set Warnings "-register-all".

(** ** JavaScript values as the handlers use them *)

Module Js.

(** The two characters a Rocq literal cannot spell directly. *)
Definition nl : string := String (Ascii.ascii_of_nat 10) EmptyString.
Definition dq : string := String (Ascii.ascii_of_nat 34) EmptyString.

(** [x || y] on an optional string: the empty string is falsy, like
    [undefined]. *)
Definition truthy_string (s : option string) : bool :=
  match s with
  | Some (String _ _) => true
  | _ => false
  end.

Definition or_string (s : option string) (dflt : string) : string :=
  match s with
  | Some (String c r) => String c r
  | _ => dflt
  end.

(** A parsed JSON value.  Object members keep the order in which the
    engine enumerates them. *)
Inductive Json : Type :=
| JNull
| JBool (b : bool)
| JNum (n : Z)
| JStr (s : string)
| JArr (items : list Json)
| JObj (members : list (string * Json)).

(** ToBoolean on a JSON value: [null], [false], [0] and the empty string
    are falsy; arrays and objects are truthy even when empty. *)
Definition truthy (j : Json) : bool :=
  match j with
  | JNull => false
  | JBool b => b
  | JNum n => negb (n =? 0)%Z
  | JStr s => truthy_string (Some s)
  | JArr _ | JObj _ => true
  end.

Definition truthy_opt (j : option Json) : bool :=
  match j with
  | Some v => truthy v
  | None => false
  end.

(** An object under construction: a member whose value is [undefined]
    ([None]) is a property of the object, and [JSON.stringify] skips it. *)
Definition JsObject : Type := list (string * option Json).

Definition toJSON (o : JsObject) : Json :=
  JObj (omap (fun kv => pair (fst kv) <$> snd kv) o).

(** [s.includes(needle)] and [s.startsWith(p)], as propositions. *)
Definition includes (needle hay : string) : Prop :=
  exists pre post, hay = pre +:+ needle +:+ post.

Definition startsWith (p s : string) : Prop :=
  exists rest, s = p +:+ rest.

(** [s.includes(needle)] as a test. *)
Fixpoint includesb (needle hay : string) : bool :=
  String.prefix needle hay
  || match hay with
     | EmptyString => false
     | String _ rest => includesb needle rest
     end.

(** [s.replace(pat, rep)] for a string pattern: the first occurrence
    only.  The dollar patterns of the replacement are not interpreted. *)
Fixpoint replace (pat rep s : string) : string :=
  if String.prefix pat s
  then rep +:+ String.substring (String.length pat)
                 (String.length s - String.length pat) s
  else match s with
       | EmptyString => EmptyString
       | String c s' => String c (replace pat rep s')
       end.

(** [list.join(sep)]. *)
Fixpoint join (sep : string) (parts : list string) : string :=
  match parts with
  | [] => EmptyString
  | [p] => p
  | p :: rest => p +:+ sep +:+ join sep rest
  end.

(** Escaping of a string literal by [JSON.stringify]: the quote, the
    backslash and the control characters. *)
Definition hex_digit (n : N) : string :=
  String (Ascii.ascii_of_N (if n <? 10 then 48 + n else 87 + n)) EmptyString.

Definition escape_char (c : Ascii.ascii) : string :=
  let n := Ascii.N_of_ascii c in
  if n =? 34 then "\" +:+ dq
  else if n =? 92 then "\\"
  else if n =? 8 then "\b"
  else if n =? 9 then "\t"
  else if n =? 10 then "\n"
  else if n =? 12 then "\f"
  else if n =? 13 then "\r"
  else if n <? 32 then "\u00" +:+ hex_digit (n / 16) +:+ hex_digit (n mod 16)
  else String c EmptyString.

Fixpoint escape (s : string) : string :=
  match s with
  | EmptyString => EmptyString
  | String c r => escape_char c +:+ escape r
  end.

Definition quote (s : string) : string := dq +:+ escape s +:+ dq.

(** [JSON.stringify(value, null, 2)] at the nesting given by [indent]. *)
Fixpoint stringify_at (indent : string) (j : Json) : string :=
  let inner := indent +:+ "  " in
  match j with
  | JNull => "null"
  | JBool true => "true"
  | JBool false => "false"
  | JNum n => pretty n
  | JStr s => quote s
  | JArr [] => "[]"
  | JArr items =>
      "[" +:+ nl
      +:+ join ("," +:+ nl) (map (fun v => inner +:+ stringify_at inner v) items)
      +:+ nl +:+ indent +:+ "]"
  | JObj [] => "{}"
  | JObj members =>
      "{" +:+ nl
      +:+ join ("," +:+ nl)
            (map (fun kv => match kv with
                            | (k, v) => inner +:+ quote k +:+ ": "
                                              +:+ stringify_at inner v
                            end) members)
      +:+ nl +:+ indent +:+ "}"
  end.

Definition JSON_stringify (j : Json) : string := stringify_at EmptyString j.

(** Thrown values.  [axios.isAxiosError] holds of the first kind only;
    [status] and [dataMessage] are [error.response?.status] and
    [error.response?.data?.message]. *)
Inductive Error : Type :=
| AxiosError (status : option N) (dataMessage : option string) (message : string)
| PlainError (message : string).

(** The outcome of awaiting an axios call. *)
Inductive Reply (A : Type) : Type :=
| Resolved (data : A)
| Rejected (e : Error).
Arguments Resolved {A} data.
Arguments Rejected {A} e.

End Js.

Import Js.


(** ** The provider's types (types.ts) *)

Inductive Category : Type :=
| company | research_paper | news | pdf | github | tweet
| personal_site | linkedin_profile | financial_report.

Inductive Status : Type := pending | processing | completed | failed.

Definition statusName (s : Status) : string :=
  match s with
  | pending => "pending"
  | processing => "processing"
  | completed => "completed"
  | failed => "failed"
  end.

Module ExaResearchRequest.
Record t : Type := mk {
  query : string;
  outputSchema : option (list (string * Json));
  llmGenerateSchema : option bool;
  report : option bool;
  numResults : option Z;
  includeDomains : option (list string);
  excludeDomains : option (list string);
  startPublishedDate : option string;
  endPublishedDate : option string;
  category : option Category
}.
End ExaResearchRequest.

(** [ExaResearchResponse["result"]]. *)
Module ResearchResult.
Record t : Type := mk {
  report : option string;
  data : option Json
}.
End ResearchResult.

Module ExaResearchResponse.
Record t : Type := mk {
  requestId : string;
  taskId : option string;
  status : option Status;
  result : option ResearchResult.t;
  error : option string
}.
End ExaResearchResponse.

(** ** The endpoints (tools/config.ts) *)

Module API_CONFIG.
Definition BASE_URL : string := "https://api.exa.ai".
Module ENDPOINTS.
Definition RESEARCH : string := "/research/v0/tasks".
Definition RESEARCH_STATUS : string := "/research/v0/tasks/:taskId".
Definition CONTENTS : string := "/contents".
Definition WEBSET_ITEMS : string := "/websets/v0/websets/:websetId/items".
End ENDPOINTS.
Definition REQUEST_TIMEOUT : N := 25000.
Definition DEFAULT_MAX_CHARACTERS : Z := 3000.
Definition DEFAULT_HIGHLIGHTS_SENTENCES : Z := 3.
End API_CONFIG.

(** ** What a tool handler returns *)

Inductive Content : Type := Text (text : string).

Record ToolResult : Type := mkResult {
  content : list Content;
  isError : option bool
}.

(** [{ content: [{ type: "text", text }] }]: the error flag is not set. *)
Definition textResult (text : string) : ToolResult :=
  {| content := [Text text]; isError := None |}.

(** [{ content: [{ type: "text", text }], isError: true }]. *)
Definition errorResult (text : string) : ToolResult :=
  {| content := [Text text]; isError := Some true |}.

Definition textOf (r : ToolResult) : string :=
  match content r with
  | Text t :: _ => t
  | [] => EmptyString
  end.

(** ** The research tools (tools/research.ts) *)

Module Research.

(** The arguments of [deep_research_exa], after schema validation. *)
Module Args.
Record t : Type := mk {
  query : string;
  report : option bool;
  numResults : option Z;
  outputSchema : option (list (string * Json));
  llmGenerateSchema : option bool;
  includeDomains : option (list string);
  excludeDomains : option (list string);
  category : option Category;
  startPublishedDate : option string;
  endPublishedDate : option string
}.
End Args.

(** What the handlers do to the outside world, in order. *)
Inductive Effect : Type :=
| Post (url : string) (body : ExaResearchRequest.t)
| Sleep (ms : N)
| Get (url : string).

(** One round of the poll loop as the world answers it: by how much the
    timer fires late, how long the status request takes, and what the
    request yields.  A request that resolves carries a response object, as
    the type of the call says. *)
Record PollEvent : Type := mkPoll {
  timerLag : N;
  latency : N;
  reply : Reply ExaResearchResponse.t
}.

(** The provider during one call of [deep_research_exa]: the answer to the
    submission and the answers to the status reads, in order. *)
Record Provider : Type := mkProvider {
  submitReply : Reply (option ExaResearchResponse.t);
  polls : list PollEvent
}.

Definition maxPollingTime : N := 120000.
Definition pollingInterval : N := 3000.

Inductive Payload : Type :=
| Report (report : string)
| Data (data : Json).

(** How a wait ends.  [Failed] and [MalformedResultError] are the two
    [throw]s of the loop body, [TransportError] a rejected status read. *)
Inductive Outcome : Type :=
| Completed (requestId : string) (p : Payload)
| Failed (msg : string)
| MalformedResultError (msg : string)
| TimedOut (taskId : string)
| TransportError (e : Error).

(** [researchRequest]: a spread of a falsy value adds no property. *)
Definition buildRequest (args : Args.t) : ExaResearchRequest.t :=
  {| ExaResearchRequest.query := Args.query args;
     ExaResearchRequest.report :=
       Some (match Args.report args with Some false => false | _ => true end);
     ExaResearchRequest.numResults :=
       Some (match Args.numResults args with
             | Some n => if (n =? 0)%Z then 10%Z else n
             | None => 10%Z
             end);
     ExaResearchRequest.outputSchema := Args.outputSchema args;
     ExaResearchRequest.llmGenerateSchema := Args.llmGenerateSchema args;
     ExaResearchRequest.includeDomains := Args.includeDomains args;
     ExaResearchRequest.excludeDomains := Args.excludeDomains args;
     ExaResearchRequest.category := Args.category args;
     ExaResearchRequest.startPublishedDate :=
       if truthy_string (Args.startPublishedDate args)
       then Args.startPublishedDate args else None;
     ExaResearchRequest.endPublishedDate :=
       if truthy_string (Args.endPublishedDate args)
       then Args.endPublishedDate args else None |}.

(** The check after the POST: no body, no [taskId] or an empty one throws. *)
Definition submit (r : Reply (option ExaResearchResponse.t)) : Error + string :=
  match r with
  | Rejected e => inl e
  | Resolved None =>
      inl (PlainError "Failed to start research task - no task ID received")
  | Resolved (Some d) =>
      match ExaResearchResponse.taskId d with
      | Some (String c r) => inr (String c r)
      | _ => inl (PlainError "Failed to start research task - no task ID received")
      end
  end.

Definition statusUrl (taskId : string) : string :=
  replace ":taskId" taskId API_CONFIG.ENDPOINTS.RESEARCH_STATUS.

(** The branches of the loop body on one status response; [None] is the
    fall-through "task still processing". *)
Definition decodeStatus (d : ExaResearchResponse.t) : option Outcome :=
  match ExaResearchResponse.status d with
  | Some completed =>
      match ExaResearchResponse.result d with
      | None =>
          Some (MalformedResultError "Research completed but no results returned")
      | Some res =>
          match ResearchResult.report res with
          | Some (String c r) =>
              Some (Completed (ExaResearchResponse.requestId d) (Report (String c r)))
          | _ =>
              match ResearchResult.data res with
              | Some v =>
                  if truthy v
                  then Some (Completed (ExaResearchResponse.requestId d) (Data v))
                  else Some (MalformedResultError
                               "Research completed but results are in unexpected format")
              | None =>
                  Some (MalformedResultError
                          "Research completed but results are in unexpected format")
              end
          end
      end
  | Some failed =>
      Some (Failed (or_string (ExaResearchResponse.error d) "Research task failed"))
  | _ => None
  end.

(** The clock after one round that began at [elapsed]: the timer waits the
    interval it was given, or longer, and the status request takes its
    time. *)
Definition advance (elapsed : N) (ev : PollEvent) : N :=
  elapsed + pollingInterval + timerLag ev + latency ev.

(** The [while] loop.  [elapsed] is [Date.now() - startTime] at the loop
    head.  The result is [None] only when the scripted answers run out
    before the loop ends. *)
Fixpoint awaitLoop (taskId : string) (polls : list PollEvent) (elapsed : N)
  : option (list Effect * Outcome) :=
  if elapsed <? maxPollingTime then
    match polls with
    | [] => None
    | ev :: rest =>
        let round := [Sleep pollingInterval; Get (statusUrl taskId)] in
        match reply ev with
        | Rejected e => Some (round, TransportError e)
        | Resolved d =>
            match decodeStatus d with
            | Some out => Some (round, out)
            | None =>
                match awaitLoop taskId rest (advance elapsed ev) with
                | Some (io, out) => Some (round ++ io, out)
                | None => None
                end
            end
        end
    end
  else Some ([], TimedOut taskId).

Definition awaitCompletion (taskId : string) (polls : list PollEvent)
  : option (list Effect * Outcome) :=
  awaitLoop taskId polls 0.

(** The text of a finished report. *)
Definition reportText (query report taskId : string) : string :=
  "# Research Report: " +:+ query +:+ nl +:+ nl +:+ report +:+ nl +:+ nl
  +:+ "---" +:+ nl +:+ "*Research ID: " +:+ taskId +:+ "*".

(** [!!args.outputSchema || args.llmGenerateSchema]: a schema object is
    truthy; without one the value is [llmGenerateSchema] as passed. *)
Definition schemaUsed (args : Args.t) : option bool :=
  match Args.outputSchema args with
  | Some _ => Some true
  | None => Args.llmGenerateSchema args
  end.

(** [formattedResults] at the point where the data branch serialises it. *)
Definition formattedResults (args : Args.t) (taskId requestId : string)
    (data : Json) : JsObject :=
  [ ("requestId", Some (JStr requestId));
    ("taskId", Some (JStr taskId));
    ("researchTopic", Some (JStr (Args.query args)));
    ("status", Some (JStr "completed"));
    ("structuredData", Some data);
    ("schemaUsed", JBool <$> schemaUsed args) ].

Definition timeoutText (taskId : string) : string :=
  "Research task is still processing. Task ID: " +:+ taskId +:+ nl +:+ nl
  +:+ "The research is taking longer than expected. You can check the status later using the task ID.".

(** What the [try] block does with the way the wait ended: [inr] is a
    [return], [inl] a [throw]. *)
Definition conclude (args : Args.t) (taskId : string) (out : Outcome)
  : Error + ToolResult :=
  match out with
  | Completed requestId (Report report) =>
      inr (textResult (reportText (Args.query args) report taskId))
  | Completed requestId (Data data) =>
      inr (textResult
             (JSON_stringify (toJSON (formattedResults args taskId requestId data))))
  | Failed msg => inl (PlainError msg)
  | MalformedResultError msg => inl (PlainError msg)
  | TransportError e => inl e
  | TimedOut t => inr (textResult (timeoutText t))
  end.

(** The [catch] block of a handler; [label] is its fixed prefix. *)
Definition catchBlock (label : string) (e : Error) : ToolResult :=
  match e with
  | AxiosError status dataMessage message =>
      let statusCode :=
        match status with
        | Some n => if n =? 0 then "unknown" else pretty n
        | None => "unknown"
        end in
      let errorMessage := or_string dataMessage message in
      errorResult (label +:+ " (" +:+ statusCode +:+ "): " +:+ errorMessage)
  | PlainError message => errorResult (label +:+ ": " +:+ message)
  end.

Definition settle (label : string) (r : Error + ToolResult) : ToolResult :=
  match r with
  | inl e => catchBlock label e
  | inr res => res
  end.

(** The handler of [deep_research_exa]. *)
Definition deep_research_exa (args : Args.t) (p : Provider)
  : option (list Effect * ToolResult) :=
  let post := Post API_CONFIG.ENDPOINTS.RESEARCH (buildRequest args) in
  match submit (submitReply p) with
  | inl e => Some ([post], catchBlock "Research error" e)
  | inr taskId =>
      match awaitCompletion taskId (polls p) with
      | Some (io, out) =>
          Some (post :: io, settle "Research error" (conclude args taskId out))
      | None => None
      end
  end.

(** The three ways [check_research_status_exa] reads a status response. *)
Inductive StatusView : Type :=
| ViewReport (report : string)
| ViewData (data : Json)
| ViewStatus (status : option Status) (error : option string).

Definition decodeCheck (d : ExaResearchResponse.t) : StatusView :=
  let echo := ViewStatus (ExaResearchResponse.status d) (ExaResearchResponse.error d) in
  match ExaResearchResponse.status d, ExaResearchResponse.result d with
  | Some completed, Some res =>
      match ResearchResult.report res with
      | Some (String c r) => ViewReport (String c r)
      | _ =>
          match ResearchResult.data res with
          | Some v => if truthy v then ViewData v else echo
          | None => echo
          end
      end
  | _, _ => echo
  end.

Definition renderCheck (taskId : string) (v : StatusView) : ToolResult :=
  match v with
  | ViewReport report =>
      textResult ("# Research Report (Task: " +:+ taskId +:+ ")" +:+ nl +:+ nl +:+ report)
  | ViewData data =>
      textResult (JSON_stringify (toJSON
        [ ("taskId", Some (JStr taskId));
          ("status", Some (JStr "completed"));
          ("data", Some data) ]))
  | ViewStatus status error =>
      textResult (JSON_stringify (toJSON
        [ ("taskId", Some (JStr taskId));
          ("status", JStr ∘ statusName <$> status);
          ("error", JStr <$> error) ]))
  end.

(** The handler of [check_research_status_exa]: one status read. *)
Definition check_research_status_exa (taskId : string)
    (r : Reply ExaResearchResponse.t) : list Effect * ToolResult :=
  ([Get (statusUrl taskId)],
   match r with
   | Rejected e => catchBlock "Status check error" e
   | Resolved d => renderCheck taskId (decodeCheck d)
   end).

End Research.

Import Research.

(** ** The status check, on the response as received *)

Module StatusCheck.

(** [response.data] of the status read.  The handler reads
    [response.data.status] for its log line first, inside the [try]: on
    [undefined] or [null] that read throws a [TypeError], whose message is
    the engine's; on a value of another kind that is no object, such as the
    empty string of an empty body, every member reads as [undefined]. *)
Inductive Body : Type :=
| Missing (typeError : string)
| Blank
| Parsed (d : ExaResearchResponse.t).

(** The handler of [check_research_status_exa], from the status read on. *)
Definition check_research_status_exa (taskId : string) (r : Reply Body)
  : list Effect * ToolResult :=
  ([Get (statusUrl taskId)],
   match r with
   | Rejected e => catchBlock "Status check error" e
   | Resolved (Missing typeError) =>
       catchBlock "Status check error" (PlainError typeError)
   | Resolved Blank => renderCheck taskId (ViewStatus None None)
   | Resolved (Parsed d) => renderCheck taskId (decodeCheck d)
   end).

End StatusCheck.

(** ** Tool selection of the server entry points (index.ts) *)

Module Server.

Record ToolInfo : Type := mkTool {
  name : string;
  description : string;
  enabled : bool
}.

(** [s.split(sep)] for a one-character separator. *)
Fixpoint split (sep : Ascii.ascii) (s : string) : list string :=
  match s with
  | EmptyString => [EmptyString]
  | String c rest =>
      if Ascii.eqb c sep then EmptyString :: split sep rest
      else match split sep rest with
           | piece :: pieces => String c piece :: pieces
           | [] => [String c EmptyString]
           end
  end.

(** [shouldRegisterTool], the same closure in both entry points, over the
    registry and the list it closes over: the list decides only when it is
    present and not empty. *)
Definition shouldRegisterTool (availableTools : gmap string ToolInfo)
    (enabledTools : option (list string)) (toolId : string) : bool :=
  match enabledTools with
  | Some (t :: ts) => bool_decide (toolId ∈ t :: ts)
  | _ => default false (enabled <$> availableTools !! toolId)
  end.

(** What an entry point has done when it returns: the registration
    functions it called, and its [registeredTools] array. *)
Record Registration : Type := mkRegistration {
  calls : list string;
  registeredTools : list string
}.

Definition call (needed : bool) (fn : string) : list string :=
  if needed then [fn] else [].

(** *** The search and websets server *)

Module Search.

Record Config : Type := mkConfig {
  exaApiKey : option string;
  enabledTools : option (list string);
  debug : bool
}.

Definition registry : list (string * ToolInfo) :=
  [
    ("web_search_exa",
     mkTool "Web Search (Exa)"
       "Advanced web search with semantic understanding and content extraction" true);
    ("get_contents_exa",
     mkTool "Get Contents"
       "Retrieve full content from specific URLs with extraction options" true);
    ("find_similar_exa",
     mkTool "Find Similar"
       "Find pages semantically similar to a given URL" true);
    ("answer_with_citations_exa",
     mkTool "Answer with Citations"
       "Generate answers to questions with web citations" true);
    ("deep_research_exa",
     mkTool "Deep Research"
       "Conduct comprehensive research with structured output" true);
    ("check_research_status_exa",
     mkTool "Check Research Status"
       "Check status of research tasks" true);
    ("research_paper_search_exa",
     mkTool "Research Paper Search"
       "Search academic papers and research" true);
    ("company_research_exa",
     mkTool "Company Research"
       "Research companies and organizations" true);
    ("crawling_exa",
     mkTool "Web Crawling"
       "Extract content from specific URLs" true);
    ("competitor_finder_exa",
     mkTool "Competitor Finder"
       "Find business competitors" true);
    ("linkedin_search_exa",
     mkTool "LinkedIn Search"
       "Search LinkedIn profiles and companies" true);
    ("wikipedia_search_exa",
     mkTool "Wikipedia Search"
       "Search Wikipedia articles" true);
    ("github_search_exa",
     mkTool "GitHub Search"
       "Search GitHub repositories and code" true);
    ("create_webset_exa",
     mkTool "Create Webset"
       "Create a new Webset for targeted search and enrichment" true);
    ("list_websets_exa",
     mkTool "List Websets"
       "List all Websets with pagination" true);
    ("get_webset_exa",
     mkTool "Get Webset"
       "Get detailed information about a specific Webset" true);
    ("update_webset_exa",
     mkTool "Update Webset"
       "Update Webset metadata or status" true);
    ("delete_webset_exa",
     mkTool "Delete Webset"
       "Delete a Webset and all its data" true);
    ("cancel_webset_exa",
     mkTool "Cancel Webset"
       "Cancel all running operations for a Webset" true);
    ("create_webset_search_exa",
     mkTool "Create Webset Search"
       "Create a search within a Webset" true);
    ("get_webset_search_exa",
     mkTool "Get Webset Search"
       "Get details of a specific search" true);
    ("list_webset_searches_exa",
     mkTool "List Webset Searches"
       "List all searches for a Webset" true);
    ("cancel_webset_search_exa",
     mkTool "Cancel Webset Search"
       "Cancel a running search" true);
    ("create_webset_enrichment_exa",
     mkTool "Create Webset Enrichment"
       "Create an enrichment task" true);
    ("get_webset_enrichment_exa",
     mkTool "Get Webset Enrichment"
       "Get enrichment details" true);
    ("list_webset_enrichments_exa",
     mkTool "List Webset Enrichments"
       "List all enrichments" true);
    ("delete_webset_enrichment_exa",
     mkTool "Delete Webset Enrichment"
       "Delete an enrichment" true);
    ("cancel_webset_enrichment_exa",
     mkTool "Cancel Webset Enrichment"
       "Cancel a running enrichment" true);
    ("list_webset_items_exa",
     mkTool "List Webset Items"
       "List all items in a Webset" true);
    ("get_webset_item_exa",
     mkTool "Get Webset Item"
       "Get detailed item information" true);
    ("delete_webset_item_exa",
     mkTool "Delete Webset Item"
       "Delete an item from a Webset" true);
    ("search_webset_items_exa",
     mkTool "Search Webset Items"
       "Search and filter items" true);
    ("create_import_exa",
     mkTool "Create Import"
       "Import data from external sources" true);
    ("get_import_exa",
     mkTool "Get Import"
       "Get import job details" true);
    ("create_webset_monitor_exa",
     mkTool "Create Monitor"
       "Create a monitor for periodic searches" true);
    ("update_webset_monitor_exa",
     mkTool "Update Monitor"
       "Update monitor settings" true);
    ("create_webhook_exa",
     mkTool "Create Webhook"
       "Create webhook for event notifications" true);
    ("list_webhook_attempts_exa",
     mkTool "List Webhook Attempts"
       "List webhook delivery attempts" true);
    ("list_events_exa",
     mkTool "List Events"
       "List system events" true);
    ("get_event_exa",
     mkTool "Get Event"
       "Get event details" true)
  ].

Definition availableTools : gmap string ToolInfo := list_to_map registry.

Definition websetTools : list string :=
  ["create_webset_exa"; "list_websets_exa"; "get_webset_exa";
   "update_webset_exa"; "delete_webset_exa"; "cancel_webset_exa"].

Definition websetSearchTools : list string :=
  ["create_webset_search_exa"; "get_webset_search_exa";
   "list_webset_searches_exa"; "cancel_webset_search_exa"].

Definition websetEnrichmentTools : list string :=
  ["create_webset_enrichment_exa"; "get_webset_enrichment_exa";
   "list_webset_enrichments_exa"; "delete_webset_enrichment_exa";
   "cancel_webset_enrichment_exa"].

Definition websetItemTools : list string :=
  ["list_webset_items_exa"; "get_webset_item_exa";
   "delete_webset_item_exa"; "search_webset_items_exa"].

Definition websetOperationTools : list string :=
  ["create_import_exa"; "get_import_exa"; "create_webset_monitor_exa";
   "update_webset_monitor_exa"; "create_webhook_exa";
   "list_webhook_attempts_exa"; "list_events_exa"; "get_event_exa"].

(** The default export: the sequence of guarded registrations. *)
Definition start (config : Config) : Registration :=
  let should := shouldRegisterTool availableTools (enabledTools config) in
  let one (toolId fn : string) : Registration :=
    if should toolId then mkRegistration [fn] [toolId] else mkRegistration [] [] in
  let group (tools : list string) (fn : string) : Registration :=
    if existsb should tools then mkRegistration [fn] (filter (fun t => should t = true) tools)
    else mkRegistration [] [] in
  let research : Registration :=
    if should "deep_research_exa" || should "check_research_status_exa"
    then mkRegistration ["registerResearchTool"]
           ((if should "deep_research_exa" then ["deep_research_exa"] else [])
            ++ (if should "check_research_status_exa"
                then ["check_research_status_exa"] else []))
    else mkRegistration [] [] in
  let steps :=
    [ one "web_search_exa" "registerWebSearchTool";
      one "get_contents_exa" "registerContentsTool";
      one "find_similar_exa" "registerFindSimilarTool";
      one "answer_with_citations_exa" "registerAnswerTool";
      research;
      one "research_paper_search_exa" "registerResearchPaperSearchTool";
      one "company_research_exa" "registerCompanyResearchTool";
      one "crawling_exa" "registerCrawlingTool";
      one "competitor_finder_exa" "registerCompetitorFinderTool";
      one "linkedin_search_exa" "registerLinkedInSearchTool";
      one "wikipedia_search_exa" "registerWikipediaSearchTool";
      one "github_search_exa" "registerGithubSearchTool";
      group websetTools "registerWebsetManagementTools";
      group websetSearchTools "registerWebsetSearchTools";
      group websetEnrichmentTools "registerWebsetEnrichmentTools";
      group websetItemTools "registerWebsetItemTools";
      group websetOperationTools "registerWebsetOperationTools" ] in
  mkRegistration (concat (calls <$> steps)) (concat (registeredTools <$> steps)).

End Search.

(** *** The websets-only server *)

Module Websets.

Record Config : Type := mkConfig {
  exaApiKey : string;
  enabledTools : option (list string);
  debug : bool
}.

(** The variables of [process.env] that the entry point reads. *)
Record Env : Type := mkEnv {
  EXA_API_KEY : option string;
  ENABLED_TOOLS : option string;
  DEBUG_MODE : option string
}.

Definition registry : list (string * ToolInfo) :=
  [
    ("create_webset_exa",
     mkTool "Create Webset"
       "Create a new Webset for targeted search and enrichment" true);
    ("list_websets_exa",
     mkTool "List Websets"
       "List all Websets with pagination" true);
    ("get_webset_exa",
     mkTool "Get Webset"
       "Get detailed information about a specific Webset" true);
    ("update_webset_exa",
     mkTool "Update Webset"
       "Update Webset metadata or status" true);
    ("delete_webset_exa",
     mkTool "Delete Webset"
       "Delete a Webset and all its data" true);
    ("cancel_webset_exa",
     mkTool "Cancel Webset"
       "Cancel all running operations for a Webset" true);
    ("create_webset_search_exa",
     mkTool "Create Webset Search"
       "Create a search within a Webset" true);
    ("get_webset_search_exa",
     mkTool "Get Webset Search"
       "Get details of a specific search" true);
    ("list_webset_searches_exa",
     mkTool "List Webset Searches"
       "List all searches for a Webset" true);
    ("cancel_webset_search_exa",
     mkTool "Cancel Webset Search"
       "Cancel a running search" true);
    ("create_webset_enrichment_exa",
     mkTool "Create Webset Enrichment"
       "Create an enrichment task" true);
    ("get_webset_enrichment_exa",
     mkTool "Get Webset Enrichment"
       "Get enrichment details" true);
    ("list_webset_enrichments_exa",
     mkTool "List Webset Enrichments"
       "List all enrichments" true);
    ("delete_webset_enrichment_exa",
     mkTool "Delete Webset Enrichment"
       "Delete an enrichment" true);
    ("cancel_webset_enrichment_exa",
     mkTool "Cancel Webset Enrichment"
       "Cancel a running enrichment" true);
    ("list_webset_items_exa",
     mkTool "List Webset Items"
       "List all items in a Webset" true);
    ("get_webset_item_exa",
     mkTool "Get Webset Item"
       "Get detailed item information" true);
    ("delete_webset_item_exa",
     mkTool "Delete Webset Item"
       "Delete an item from a Webset" true);
    ("search_webset_items_exa",
     mkTool "Search Webset Items"
       "Search and filter items" true);
    ("create_import_exa",
     mkTool "Create Import"
       "Import data from external sources" true);
    ("get_import_exa",
     mkTool "Get Import"
       "Get import job details" true);
    ("list_imports_exa",
     mkTool "List Imports"
       "List all import jobs" true);
    ("update_import_exa",
     mkTool "Update Import"
       "Update import (cancel)" true);
    ("delete_import_exa",
     mkTool "Delete Import"
       "Delete an import job" true);
    ("create_webset_monitor_exa",
     mkTool "Create Monitor"
       "Create a monitor for periodic searches" true);
    ("get_webset_monitor_exa",
     mkTool "Get Monitor"
       "Get monitor details" true);
    ("list_webset_monitors_exa",
     mkTool "List Monitors"
       "List all monitors for a webset" true);
    ("update_webset_monitor_exa",
     mkTool "Update Monitor"
       "Update monitor settings" true);
    ("delete_webset_monitor_exa",
     mkTool "Delete Monitor"
       "Delete a monitor" true);
    ("list_monitor_runs_exa",
     mkTool "List Monitor Runs"
       "List all runs for a monitor" true);
    ("get_monitor_run_exa",
     mkTool "Get Monitor Run"
       "Get details of a monitor run" true);
    ("create_webhook_exa",
     mkTool "Create Webhook"
       "Create webhook for event notifications" true);
    ("get_webhook_exa",
     mkTool "Get Webhook"
       "Get webhook details" true);
    ("list_webhooks_exa",
     mkTool "List Webhooks"
       "List all webhooks" true);
    ("update_webhook_exa",
     mkTool "Update Webhook"
       "Update webhook configuration" true);
    ("delete_webhook_exa",
     mkTool "Delete Webhook"
       "Delete a webhook" true);
    ("list_webhook_attempts_exa",
     mkTool "List Webhook Attempts"
       "List webhook delivery attempts" true);
    ("list_events_exa",
     mkTool "List Events"
       "List system events" true);
    ("get_event_exa",
     mkTool "Get Event"
       "Get event details" true);
    ("create_export_exa",
     mkTool "Create Export"
       "Export webset items in various formats" true);
    ("get_export_exa",
     mkTool "Get Export"
       "Get export job status and download URL" true);
    ("list_exports_exa",
     mkTool "List Exports"
       "List all export jobs for a webset" true);
    ("delete_export_exa",
     mkTool "Delete Export"
       "Delete an export job" true);
    ("update_webset_item_exa",
     mkTool "Update Item"
       "Update a single webset item" true);
    ("batch_update_items_exa",
     mkTool "Batch Update Items"
       "Update multiple items at once" true);
    ("batch_delete_items_exa",
     mkTool "Batch Delete Items"
       "Delete multiple items at once" true);
    ("batch_verify_items_exa",
     mkTool "Batch Verify Items"
       "Verify multiple items at once" true)
  ].

Definition availableTools : gmap string ToolInfo := list_to_map registry.

Definition websetCoreTools : list string :=
  ["create_webset_exa"; "list_webset_items_exa"; "get_webset_item_exa";
   "list_websets_exa"; "get_webset_exa"; "search_webset_items_exa"].

Definition websetEnrichmentTools : list string :=
  ["create_webset_enrichment_exa"; "list_webset_enrichments_exa";
   "get_webset_enrichment_exa"; "delete_webset_enrichment_exa";
   "cancel_webset_enrichment_exa"].

Definition websetAutomationTools : list string :=
  ["create_import_exa"; "get_import_exa"; "list_imports_exa";
   "update_import_exa"; "delete_import_exa";
   "create_webset_monitor_exa"; "get_webset_monitor_exa";
   "list_webset_monitors_exa"; "update_webset_monitor_exa";
   "delete_webset_monitor_exa"; "list_monitor_runs_exa";
   "get_monitor_run_exa"; "create_webhook_exa"; "get_webhook_exa";
   "list_webhooks_exa"; "update_webhook_exa"; "delete_webhook_exa";
   "list_webhook_attempts_exa"].

Definition websetExportTools : list string :=
  ["create_export_exa"; "get_export_exa"; "list_exports_exa";
   "delete_export_exa"].

Definition websetManagementTools : list string :=
  ["create_webset_search_exa"; "get_webset_search_exa";
   "list_webset_searches_exa"; "cancel_webset_search_exa";
   "update_webset_exa"; "delete_webset_exa"; "delete_webset_item_exa";
   "cancel_webset_exa"].

Definition websetSystemTools : list string :=
  ["list_events_exa"; "get_event_exa"].

Definition websetBatchTools : list string :=
  ["update_webset_item_exa"; "batch_update_items_exa";
   "batch_delete_items_exa"; "batch_verify_items_exa"].

Definition allWebsetTools : list string :=
  websetCoreTools ++ websetEnrichmentTools ++ websetAutomationTools
  ++ websetExportTools ++ websetBatchTools ++ websetManagementTools
  ++ websetSystemTools.

(** [finalConfig.enabledTools]: an array is truthy even when empty, so
    the environment is consulted only when the list is absent. *)
Definition finalEnabledTools (config : Config) (env : Env) : option (list string) :=
  match enabledTools config with
  | Some l => Some l
  | None =>
      if truthy_string (ENABLED_TOOLS env)
      then split (Ascii.ascii_of_nat 44) <$> ENABLED_TOOLS env
      else None
  end.

Definition finalApiKey (config : Config) (env : Env) : option string :=
  if truthy_string (Some (exaApiKey config)) then Some (exaApiKey config)
  else EXA_API_KEY env.

(** The registrations, for the list [finalConfig] ends up with. *)
Definition register (enabled : option (list string)) : Registration :=
  let should := shouldRegisterTool availableTools enabled in
  let needsManagement := existsb should (websetCoreTools ++ websetManagementTools) in
  let needsSearch :=
    existsb should (filter (fun t => includesb "search" t = true) websetManagementTools) in
  let needsEnrichment := existsb should websetEnrichmentTools in
  let needsItems :=
    existsb should (filter (fun t => includesb "item" t = true) websetCoreTools) in
  let needsOperations := existsb should (websetAutomationTools ++ websetSystemTools) in
  let needsExport := existsb should websetExportTools in
  let needsBatch := existsb should websetBatchTools in
  mkRegistration
    (call needsManagement "registerWebsetManagementTools"
     ++ call needsSearch "registerWebsetSearchTools"
     ++ call needsEnrichment "registerWebsetEnrichmentTools"
     ++ call needsItems "registerWebsetItemTools"
     ++ call needsOperations "registerWebsetOperationTools"
     ++ call needsExport "registerWebsetExportTools"
     ++ call needsBatch "registerWebsetBatchTools")
    (filter (fun t => should t = true) allWebsetTools).

(** The default export: it throws when no API key is configured. *)
Definition start (config : Config) (env : Env) : Error + Registration :=
  if truthy_string (finalApiKey config env)
  then inr (register (finalEnabledTools config env))
  else inl (PlainError
              "EXA_API_KEY is required but not provided in config or environment").

End Websets.

End Server.

(** ** What the registration functions register (tools/*.ts) *)

Module Registers.

(** The names a registration function passes to [server.tool], in order.
    Each call is unconditional. *)
Definition registerContentsTool : list string := ["get_contents_exa"].

Definition registerAnswerTool : list string := ["answer_with_citations_exa"].

Definition registerFindSimilarTool : list string := ["find_similar_exa"].

Definition registerResearchTool : list string :=
  ["deep_research_exa"; "check_research_status_exa"].

Definition registerWebsetManagementTools : list string :=
  ["create_webset_exa"; "list_websets_exa"; "get_webset_exa";
   "update_webset_exa"; "delete_webset_exa"; "cancel_webset_exa"].

Definition registerWebsetSearchTools : list string :=
  ["create_webset_search_exa"; "get_webset_search_exa";
   "list_webset_searches_exa"; "cancel_webset_search_exa"].

Definition registerWebsetEnrichmentTools : list string :=
  ["create_webset_enrichment_exa"; "get_webset_enrichment_exa";
   "list_webset_enrichments_exa"; "delete_webset_enrichment_exa";
   "cancel_webset_enrichment_exa"].

Definition registerWebsetOperationTools : list string :=
  ["create_import_exa"; "get_import_exa"; "create_webset_monitor_exa";
   "update_webset_monitor_exa"; "create_webhook_exa";
   "list_webhook_attempts_exa"; "list_events_exa"; "get_event_exa"].

Definition registerWebsetItemTools : list string :=
  ["list_webset_items_exa"; "get_webset_item_exa"; "delete_webset_item_exa";
   "search_webset_items_exa"].

(** The registration functions of these sources, by name. *)
Definition registrars : list (string * list string) :=
  [ ("registerContentsTool", registerContentsTool);
    ("registerFindSimilarTool", registerFindSimilarTool);
    ("registerAnswerTool", registerAnswerTool);
    ("registerResearchTool", registerResearchTool);
    ("registerWebsetManagementTools", registerWebsetManagementTools);
    ("registerWebsetSearchTools", registerWebsetSearchTools);
    ("registerWebsetEnrichmentTools", registerWebsetEnrichmentTools);
    ("registerWebsetItemTools", registerWebsetItemTools);
    ("registerWebsetOperationTools", registerWebsetOperationTools) ].

(** The tools of a registration function; [None] for a function whose
    file is not among these sources. *)
Definition toolsOf (fn : string) : option (list string) :=
  snd <$> List.find (fun g => String.eqb fn (fst g)) registrars.

(** The tools that the calls put on the server, as far as these sources
    tell. *)
Definition serverTools (calls : list string) : list string :=
  concat (omap toolsOf calls).

End Registers.

(** ** The contents tool (tools/contents.ts) *)

Module Contents.

(** [x || dflt] and [x && { k: x }] on an optional number: zero is falsy. *)
Definition or_number (x : option Z) (dflt : Z) : Z :=
  match x with
  | Some n => if (n =? 0)%Z then dflt else n
  | None => dflt
  end.

Definition truthy_number (x : option Z) : option Z :=
  match x with
  | Some n => if (n =? 0)%Z then None else Some n
  | None => None
  end.

Definition truthy_text (x : option string) : option string :=
  match x with
  | Some (String c r) => Some (String c r)
  | _ => None
  end.

(** An option that is a boolean or an object of settings. *)
Inductive BoolOr (A : Type) : Type :=
| Bool (b : bool)
| Options (o : A).
Arguments Bool {A} b.
Arguments Options {A} o.

Inductive Livecrawl : Type := always | fallback | never.

Module TextOptions.
Record t : Type := mk {
  maxCharacters : option Z;
  includeHtmlTags : option bool
}.
End TextOptions.

Module HighlightOptions.
Record t : Type := mk {
  numSentences : option Z;
  highlightsPerUrl : option Z;
  query : option string
}.
End HighlightOptions.

Module SummaryOptions.
Record t : Type := mk {
  query : option string
}.
End SummaryOptions.

Module Subpages.
Record t : Type := mk {
  max : option Z;
  includePatterns : option (list string);
  excludePatterns : option (list string)
}.
End Subpages.

Module Extras.
Record t : Type := mk {
  links : option bool;
  imageLinks : option bool
}.
End Extras.

(** The arguments of [get_contents_exa], after schema validation. *)
Module Args.
Record t : Type := mk {
  urls : list string;
  text : option (BoolOr TextOptions.t);
  highlights : option (BoolOr HighlightOptions.t);
  summary : option (BoolOr SummaryOptions.t);
  livecrawl : option Livecrawl;
  subpages : option Subpages.t;
  extras : option Extras.t
}.
End Args.

Module ExaContentsRequest.
Record t : Type := mk {
  urls : list string;
  text : option (BoolOr TextOptions.t);
  highlights : option (BoolOr HighlightOptions.t);
  summary : option (BoolOr SummaryOptions.t);
  livecrawl : option Livecrawl;
  subpages : option Subpages.t;
  extras : option Extras.t
}.
End ExaContentsRequest.

Inductive ResultStatus : Type := success | error.

Definition resultStatusName (s : ResultStatus) : string :=
  match s with
  | success => "success"
  | error => "error"
  end.

Module ExaContentResult.
Record t : Type := mk {
  url : string;
  title : option string;
  text : option string;
  highlights : option (list string);
  summary : option string;
  author : option string;
  publishedDate : option string;
  links : option (list string);
  imageLinks : option (list string);
  error : option string;
  status : option ResultStatus
}.
End ExaContentResult.

(** An entry of [ExaContentsResponse["statuses"]].  Its [status] is what
    the provider sent: nothing checks it against the two spellings that the
    type declares before the handler compares it with them. *)
Module UrlStatus.
Record t : Type := mk {
  url : string;
  status : string;
  error : option string
}.
End UrlStatus.

Module ExaContentsResponse.
Record t : Type := mk {
  requestId : string;
  results : option (list ExaContentResult.t);
  statuses : option (list UrlStatus.t)
}.
End ExaContentsResponse.

(** [response.data] of the POST.  The handler reads [response.data.results]
    for its log line before it tests [response.data]: on [undefined] or
    [null] that read throws a [TypeError], whose message is the engine's;
    on a falsy value of another kind, such as the empty string of an empty
    body, it yields [undefined]. *)
Inductive Body : Type :=
| Missing (typeError : string)
| Blank
| Parsed (d : ExaContentsResponse.t).

Inductive Effect : Type :=
| Post (url : string) (body : ExaContentsRequest.t).

(** [contentsRequest]. *)
Definition buildRequest (args : Args.t) : ExaContentsRequest.t :=
  {| ExaContentsRequest.urls := Args.urls args;
     ExaContentsRequest.text :=
       Some match Args.text args with
            | Some (Bool b) => Bool b
            | Some (Options o) =>
                Options
                  {| TextOptions.maxCharacters :=
                       Some (or_number (TextOptions.maxCharacters o)
                               API_CONFIG.DEFAULT_MAX_CHARACTERS);
                     TextOptions.includeHtmlTags := TextOptions.includeHtmlTags o |}
            | None =>
                Options
                  {| TextOptions.maxCharacters := Some API_CONFIG.DEFAULT_MAX_CHARACTERS;
                     TextOptions.includeHtmlTags := None |}
            end;
     ExaContentsRequest.highlights :=
       match Args.highlights args with
       | Some (Bool b) => Some (Bool b)
       | Some (Options o) =>
           Some (Options
             {| HighlightOptions.numSentences :=
                  Some (or_number (HighlightOptions.numSentences o)
                          API_CONFIG.DEFAULT_HIGHLIGHTS_SENTENCES);
                HighlightOptions.highlightsPerUrl :=
                  truthy_number (HighlightOptions.highlightsPerUrl o);
                HighlightOptions.query := truthy_text (HighlightOptions.query o) |})
       | None => None
       end;
     ExaContentsRequest.summary :=
       match Args.summary args with
       | Some (Bool b) => Some (Bool b)
       | Some (Options o) =>
           Some (Options
             {| SummaryOptions.query := truthy_text (SummaryOptions.query o) |})
       | None => None
       end;
     ExaContentsRequest.livecrawl := Some (default fallback (Args.livecrawl args));
     ExaContentsRequest.subpages :=
       match Args.subpages args with
       | Some sp =>
           Some {| Subpages.max := Some (or_number (Subpages.max sp) 0);
                   Subpages.includePatterns := Subpages.includePatterns sp;
                   Subpages.excludePatterns := Subpages.excludePatterns sp |}
       | None => None
       end;
     ExaContentsRequest.extras := Args.extras args |}.

(** [...(v && { k: v })]: the member is there when the value is. *)
Definition optional (k : string) (v : option Json) : list (string * Json) :=
  match v with
  | Some j => [(k, j)]
  | None => []
  end.

(** One entry of [formattedResults.results]; [index] counts from zero. *)
Definition formatResult (index : nat) (r : ExaContentResult.t) : Json :=
  JObj
    ([("index", JNum (Z.of_nat index + 1)); ("url", JStr (ExaContentResult.url r))]
     ++ optional "title" (JStr <$> ExaContentResult.title r)
     ++ [("status",
          JStr (resultStatusName (default success (ExaContentResult.status r))))]
     ++ optional "error" (JStr <$> truthy_text (ExaContentResult.error r))
     ++ optional "author" (JStr <$> truthy_text (ExaContentResult.author r))
     ++ optional "publishedDate"
          (JStr <$> truthy_text (ExaContentResult.publishedDate r))
     ++ match truthy_text (ExaContentResult.text r) with
        | Some t => [("text", JStr t); ("textLength", JNum (Z.of_nat (String.length t)))]
        | None => []
        end
     ++ optional "highlights"
          ((fun h => JArr (JStr <$> h)) <$> ExaContentResult.highlights r)
     ++ optional "summary" (JStr <$> truthy_text (ExaContentResult.summary r))
     ++ optional "linksCount"
          ((fun l => JNum (Z.of_nat (length l))) <$> ExaContentResult.links r)
     ++ optional "imageLinksCount"
          ((fun l => JNum (Z.of_nat (length l))) <$> ExaContentResult.imageLinks r)).

(** [s => s.status === 'error'] and [s => s.status === 'success']. *)
Definition isError (s : UrlStatus.t) : bool :=
  String.eqb (UrlStatus.status s) "error".

Definition isSuccess (s : UrlStatus.t) : bool :=
  String.eqb (UrlStatus.status s) "success".

(** [formattedResults.statusSummary]. *)
Definition statusSummary (statuses : list UrlStatus.t) : Json :=
  JObj
    [ ("success", JNum (Z.of_nat (length (List.filter isSuccess statuses))));
      ("errors", JNum (Z.of_nat (length (List.filter isError statuses))));
      ("errorDetails",
       JArr ((fun s => JObj ([("url", JStr (UrlStatus.url s))]
                             ++ optional "error" (JStr <$> UrlStatus.error s)))
             <$> List.filter isError statuses)) ].

Definition formattedResults (d : ExaContentsResponse.t)
    (results : list ExaContentResult.t) : Json :=
  JObj
    ([ ("requestId", JStr (ExaContentsResponse.requestId d));
       ("urlsProcessed", JNum (Z.of_nat (length results)));
       ("results", JArr (imap formatResult results)) ]
     ++ optional "statusSummary" (statusSummary <$> ExaContentsResponse.statuses d)).

Definition tooManyUrls : string :=
  "Error: Maximum 10 URLs allowed per request. Please split your request into smaller batches.".

Definition noContent : string :=
  "No content retrieved. The URLs may be inaccessible or blocked.".

(** What the handler makes of the answer to its POST. *)
Definition render (reply : Reply Body) : ToolResult :=
  match reply with
  | Rejected e => Research.catchBlock "Content retrieval error" e
  | Resolved (Missing typeError) =>
      Research.catchBlock "Content retrieval error" (PlainError typeError)
  | Resolved Blank => textResult noContent
  | Resolved (Parsed d) =>
      match ExaContentsResponse.results d with
      | None => textResult noContent
      | Some results => textResult (JSON_stringify (formattedResults d results))
      end
  end.

(** The handler of [get_contents_exa]. *)
Definition get_contents_exa (args : Args.t) (reply : Reply Body)
  : list Effect * ToolResult :=
  if (10 <? length (Args.urls args))%nat
  then ([], errorResult tooManyUrls)
  else ([Post API_CONFIG.ENDPOINTS.CONTENTS (buildRequest args)], render reply).

End Contents.

(** ** Searching the items of a webset (tools/websets/websetOperations.ts) *)

Module Items.

(** A property that may be absent, [null], or hold a value. *)
Inductive Nullable (A : Type) : Type :=
| Undefined
| Null
| Value (a : A).
Arguments Undefined {A}.
Arguments Null {A}.
Arguments Value {A} a.

Inductive VerificationStatus : Type := verified | pending | failed.

Definition verificationName (s : VerificationStatus) : string :=
  match s with
  | verified => "verified"
  | pending => "pending"
  | failed => "failed"
  end.

Definition sameStatus (a b : VerificationStatus) : bool :=
  match a, b with
  | verified, verified | pending, pending | failed, failed => true
  | _, _ => false
  end.

Module Verification.
Record t : Type := mk {
  status : VerificationStatus;
  reasoning : Nullable string;
  references : option (list string)
}.
End Verification.

Module WebsetItem.
Record t : Type := mk {
  id : string;
  websetId : string;
  url : string;
  title : Nullable string;
  content : Nullable string;
  type : Nullable string;
  verification : option Verification.t;
  enrichedData : option (list (string * Json));
  metadata : option (list (string * string));
  createdAt : string;
  updatedAt : string
}.
End WebsetItem.

(** [PaginatedWebsetItemList]; an absent cursor and a [null] one are both
    [None]. *)
Module Page.
Record t : Type := mk {
  data : list WebsetItem.t;
  hasMore : bool;
  nextCursor : option string
}.
End Page.

Module Filters.
Record t : Type := mk {
  type : option string;
  verificationStatus : option VerificationStatus;
  hasEnrichedData : option bool;
  urlPattern : option string;
  titlePattern : option string
}.
End Filters.

(** The answer to one page request: the page, or an axios error with
    [error.response?.status], [error.response?.data?.error] and
    [error.message]. *)
Inductive PageReply : Type :=
| Fetched (page : Page.t)
| Refused (status : option N) (dataError : option string) (message : string).

(** What is thrown inside the handler: the axios error of a page request,
    or the [SyntaxError] of a pattern. *)
Inductive Failure : Type :=
| RequestFailed (status : option N) (dataError : option string) (message : string)
| PatternFailed (message : string).

Inductive Effect : Type :=
| Get (url : string) (params : list (string * string)).

Definition itemsUrl (websetId : string) : string :=
  replace ":websetId" websetId API_CONFIG.ENDPOINTS.WEBSET_ITEMS.

(** The query of a page request: the cursor when there is one, and the
    page size. *)
Definition pageParams (cursor : option string) : list (string * string) :=
  match cursor with
  | Some (String c r) => [("cursor", String c r)]
  | _ => []
  end ++ [("limit", "100")].

(** The [while (hasMore)] loop over the scripted answers; [None] when they
    run out while the provider still announces more. *)
Fixpoint fetchAll (websetId : string) (replies : list PageReply)
    (cursor : option string) (allItems : list WebsetItem.t)
  : option (list Effect * (Failure + list WebsetItem.t)) :=
  match replies with
  | [] => None
  | reply :: rest =>
      let request := Get (itemsUrl websetId) (pageParams cursor) in
      match reply with
      | Refused status dataError message =>
          Some ([request], inl (RequestFailed status dataError message))
      | Fetched page =>
          let allItems := allItems ++ Page.data page in
          if Page.hasMore page
          then match fetchAll websetId rest (Page.nextCursor page) allItems with
               | Some (io, res) => Some (request :: io, res)
               | None => None
               end
          else Some ([request], inr allItems)
      end
  end.

(** [item.enrichedData && Object.keys(item.enrichedData).length > 0] as a
    condition. *)
Definition hasData (item : WebsetItem.t) : bool :=
  match WebsetItem.enrichedData item with
  | Some (_ :: _) => true
  | _ => false
  end.

Definition typeIs (ty : string) (item : WebsetItem.t) : bool :=
  match WebsetItem.type item with
  | Value t => String.eqb t ty
  | _ => false
  end.

Definition verificationIs (v : VerificationStatus) (item : WebsetItem.t) : bool :=
  match WebsetItem.verification item with
  | Some vf => sameStatus (Verification.status vf) v
  | None => false
  end.

Definition truthy_pattern (p : option string) : option string :=
  match p with
  | Some (String c r) => Some (String c r)
  | _ => None
  end.

Section Filtering.

(** [new RegExp(pattern, 'i')]: the [SyntaxError] message of a pattern that
    does not compile, or the [test] of the expression. *)
Variable RegExp : string -> string + (string -> bool).

(** The filters, applied one after the other. *)
Definition applyFilters (filters : option Filters.t) (items : list WebsetItem.t)
  : Failure + list WebsetItem.t :=
  match filters with
  | None => inr items
  | Some f =>
      let items :=
        match truthy_pattern (Filters.type f) with
        | Some ty => List.filter (typeIs ty) items
        | None => items
        end in
      let items :=
        match Filters.verificationStatus f with
        | Some v => List.filter (verificationIs v) items
        | None => items
        end in
      let items :=
        match Filters.hasEnrichedData f with
        | Some want =>
            List.filter (fun item => if want then hasData item else negb (hasData item))
              items
        | None => items
        end in
      match match truthy_pattern (Filters.urlPattern f) with
            | Some p =>
                match RegExp p with
                | inl msg => inl (PatternFailed msg)
                | inr test => inr (List.filter (fun item => test (WebsetItem.url item)) items)
                end
            | None => inr items
            end with
      | inl e => inl e
      | inr items =>
          match truthy_pattern (Filters.titlePattern f) with
          | Some p =>
              match RegExp p with
              | inl msg => inl (PatternFailed msg)
              | inr test =>
                  inr (List.filter
                         (fun item =>
                            match WebsetItem.title item with
                            | Value (String c r) => test (String c r)
                            | _ => false
                            end) items)
              end
          | None => inr items
          end
      end
  end.

Definition nullable (v : Nullable string) : option Json :=
  match v with
  | Undefined => None
  | Null => Some JNull
  | Value s => Some (JStr s)
  end.

Definition verificationJson (v : Verification.t) : Json :=
  toJSON [ ("status", Some (JStr (verificationName (Verification.status v))));
           ("reasoning", nullable (Verification.reasoning v));
           ("references", (fun l => JArr (JStr <$> l)) <$> Verification.references v) ].

Definition itemJson (item : WebsetItem.t) : Json :=
  toJSON [ ("id", Some (JStr (WebsetItem.id item)));
           ("url", Some (JStr (WebsetItem.url item)));
           ("title", nullable (WebsetItem.title item));
           ("type", nullable (WebsetItem.type item));
           ("verification", verificationJson <$> WebsetItem.verification item);
           ("enrichedData", JObj <$> WebsetItem.enrichedData item);
           ("metadata",
            (fun m => JObj (prod_map id JStr <$> m)) <$> WebsetItem.metadata item);
           ("createdAt", Some (JStr (WebsetItem.createdAt item)));
           ("updatedAt", Some (JStr (WebsetItem.updatedAt item))) ].

Definition filtersJson (f : Filters.t) : Json :=
  toJSON [ ("type", JStr <$> Filters.type f);
           ("verificationStatus", JStr ∘ verificationName <$> Filters.verificationStatus f);
           ("hasEnrichedData", JBool <$> Filters.hasEnrichedData f);
           ("urlPattern", JStr <$> Filters.urlPattern f);
           ("titlePattern", JStr <$> Filters.titlePattern f) ].

Definition formattedResult (websetId : string) (filters : option Filters.t)
    (allItems filteredItems : list WebsetItem.t) : Json :=
  toJSON [ ("websetId", Some (JStr websetId));
           ("totalItems", Some (JNum (Z.of_nat (length allItems))));
           ("matchingItems", Some (JNum (Z.of_nat (length filteredItems))));
           ("filters", filtersJson <$> filters);
           ("items", Some (JArr (itemJson <$> filteredItems))) ].

(** The [catch] block of the handler. *)
Definition catchBlock (e : Failure) : ToolResult :=
  match e with
  | RequestFailed status dataError message =>
      errorResult ("Search items error ("
                   +:+ match status with
                       | Some n => if n =? 0 then "unknown" else pretty n
                       | None => "unknown"
                       end
                   +:+ "): " +:+ or_string dataError message)
  | PatternFailed message => errorResult ("Search items error: " +:+ message)
  end.

(** The handler of [search_webset_items_exa]. *)
Definition search_webset_items_exa (websetId : string) (filters : option Filters.t)
    (replies : list PageReply) : option (list Effect * ToolResult) :=
  match fetchAll websetId replies None [] with
  | None => None
  | Some (io, inl e) => Some (io, catchBlock e)
  | Some (io, inr allItems) =>
      Some (io,
            match applyFilters filters allItems with
            | inl e => catchBlock e
            | inr filteredItems =>
                textResult (JSON_stringify
                              (formattedResult websetId filters allItems filteredItems))
            end)
  end.

End Filtering.

End Items.

(** ** Vocabulary of the properties *)

(** A terminal status: [completed] or [failed]. *)
Definition terminal (d : ExaResearchResponse.t) : bool :=
  match ExaResearchResponse.status d with
  | Some completed | Some failed => true
  | _ => false
  end.

(** A round whose status read succeeds and reports no terminal status. *)
Definition stillProcessing (ev : PollEvent) : bool :=
  match reply ev with
  | Resolved d => negb (terminal d)
  | Rejected _ => false
  end.

(** What a round that ends the loop ends it with. *)
Definition roundOutcome (ev : PollEvent) : option Outcome :=
  match reply ev with
  | Resolved d => decodeStatus d
  | Rejected e => Some (TransportError e)
  end.

(** The elapsed time after [rounds], when they began at [elapsed]. *)
Definition clock (rounds : list PollEvent) (elapsed : N) : N :=
  fold_left advance rounds elapsed.

(** [n] rounds of the loop: a sleep of the polling interval, then a read. *)
Definition cadence (n : nat) (url : string) : list Effect :=
  concat (replicate n [Sleep pollingInterval; Get url]).

Definition isGet (e : Effect) : bool :=
  match e with
  | Get _ => true
  | _ => false
  end.

(** The number of status reads among the effects. *)
Definition reads (io : list Effect) : nat := length (List.filter isGet io).

(** A [completed] status with nothing to render: no result, or a result
    whose report and data are both missing or falsy. *)
Definition completedWithoutPayload (d : ExaResearchResponse.t) : bool :=
  match ExaResearchResponse.status d, ExaResearchResponse.result d with
  | Some completed, None => true
  | Some completed, Some res =>
      negb (truthy_string (ResearchResult.report res))
      && negb (truthy_opt (ResearchResult.data res))
  | _, _ => false
  end.

(** How a path reads one status response.  [ReadsError] is raising an
    error; [ReadsBareCompleted] is echoing a [completed] status with no
    payload. *)
Inductive Reading : Type :=
| ReadsReport (report : string)
| ReadsData (data : Json)
| ReadsFailed
| ReadsPending
| ReadsError
| ReadsBareCompleted.

(** The poller's reading: the branch of its loop body. *)
Definition pollReading (d : ExaResearchResponse.t) : Reading :=
  match decodeStatus d with
  | Some (Completed _ (Report r)) => ReadsReport r
  | Some (Completed _ (Data v)) => ReadsData v
  | Some (Failed _) => ReadsFailed
  | Some (MalformedResultError _) | Some (TransportError _) => ReadsError
  | Some (TimedOut _) | None => ReadsPending
  end.

(** The status check's reading: the branch of its handler, the echoed
    status telling a failure from a wait. *)
Definition checkReading (d : ExaResearchResponse.t) : Reading :=
  match decodeCheck d with
  | ViewReport r => ReadsReport r
  | ViewData v => ReadsData v
  | ViewStatus (Some failed) _ => ReadsFailed
  | ViewStatus (Some completed) _ => ReadsBareCompleted
  | ViewStatus _ _ => ReadsPending
  end.

(** The keys of a JSON object, in order. *)
Definition keys (j : Json) : list string :=
  match j with
  | JObj members => fst <$> members
  | _ => []
  end.

(** [j[k]] on a JSON object. *)
Definition member (k : string) (j : Json) : option Json :=
  match j with
  | JObj members => snd <$> List.find (fun kv => String.eqb k (fst kv)) members
  | _ => None
  end.

(** How a run that ended looks: [n] rounds were gone through, each begun
    before the deadline, all but possibly the last still processing; either
    the deadline then ended the loop, or the last round did. *)
Definition stoppedBy (t : string) (polls : list PollEvent) (e : N) (n : nat)
    (out : Outcome) : Prop :=
  match out with
  | TimedOut t' =>
      t' = t /\ maxPollingTime <= clock (take n polls) e
      /\ Forall (fun ev => stillProcessing ev = true) (take n polls)
  | _ =>
      (0 < n)%nat
      /\ exists ev, polls !! pred n = Some ev /\ roundOutcome ev = Some out
  end.

(** *** Sample data *)

Definition response (st : option Status) (res : option ResearchResult.t)
    (err : option string) : ExaResearchResponse.t :=
  ExaResearchResponse.mk "req-1" None st res err.

(** A prompt round that answers with [d]. *)
Definition answered (d : ExaResearchResponse.t) : PollEvent :=
  mkPoll 0 0 (Resolved d).

(** The provider accepts the submission and names the task. *)
Definition accepted (taskId : string) : Reply (option ExaResearchResponse.t) :=
  Resolved (Some (ExaResearchResponse.mk "req-0" (Some taskId) (Some pending) None None)).

(** [{ query: "X" }]. *)
Definition queryX : Args.t :=
  Args.mk "X" None None None None None None None None None.

Definition reportOf (r : string) : option ResearchResult.t :=
  Some (ResearchResult.mk (Some r) None).

Definition dataOf (v : Json) : option ResearchResult.t :=
  Some (ResearchResult.mk None (Some v)).

(** A round that reports [processing]. *)
Definition processingRound : PollEvent :=
  answered (response (Some processing) None None).

(** [completed], with a result whose report is the empty string. *)
Definition emptyReport : ExaResearchResponse.t :=
  response (Some completed) (Some (ResearchResult.mk (Some EmptyString) None)) None.

(** [processing], then [completed] with an empty report, then a late
    [completed] with a report that is never read. *)
Definition malformedScript : Provider :=
  mkProvider (accepted "t1")
    [processingRound; answered emptyReport;
     answered (response (Some completed) (reportOf "late") None)].

(** Forty rounds of [processing]: enough to reach the deadline. *)
Definition alwaysProcessing : Provider :=
  mkProvider (accepted "t1") (replicate 40 processingRound).

(** Thirty-nine prompt rounds of [processing]; the fortieth begins at
    117 s, takes five seconds to be answered, and reports [completed] with
    a report. *)
Definition lateReport : Provider :=
  mkProvider (accepted "t1")
    (replicate 39 processingRound
     ++ [mkPoll 0 5000 (Resolved (response (Some completed) (reportOf "done") None))]).

(** [processing], [processing], [completed] with a report, and what the
    provider would go on to answer. *)
Definition reportScript : list PollEvent :=
  [processingRound; processingRound;
   answered (response (Some completed) (reportOf "...") None)]
  ++ replicate 40 processingRound.


(** *** More sample data *)

(** The provider's gateway answers a status read with 503. *)
Definition unavailable : Error :=
  AxiosError (Some 503) None "Request failed with status code 503".

(** [processing], then a status read that the gateway rejects, then a
    [completed] that is never read. *)
Definition outageScript : Provider :=
  mkProvider (accepted "t1")
    [processingRound; mkPoll 0 0 (Rejected unavailable);
     answered (response (Some completed) (reportOf "late") None)].

(** [completed] with both a report and data. *)
Definition reportAndData : ExaResearchResponse.t :=
  response (Some completed)
    (Some (ResearchResult.mk (Some "R") (Some (JObj [("answer", JNum 42)])))) None.

(** [completed] with data and an empty report. *)
Definition dataOnly : ExaResearchResponse.t :=
  response (Some completed)
    (Some (ResearchResult.mk (Some EmptyString) (Some (JObj [("answer", JNum 42)])))) None.

(** The HTTP status as the catch blocks print it. *)
Definition statusCode (status : option N) : string :=
  match status with
  | Some n => if n =? 0 then "unknown" else pretty n
  | None => "unknown"
  end.

(** The guarded registrations of the search and websets server, as a
    table: the function of each, and the tools its guard asks about. *)
Definition searchSteps : list (string * list string) :=
  [ ("registerWebSearchTool", ["web_search_exa"]);
    ("registerContentsTool", ["get_contents_exa"]);
    ("registerFindSimilarTool", ["find_similar_exa"]);
    ("registerAnswerTool", ["answer_with_citations_exa"]);
    ("registerResearchTool", ["deep_research_exa"; "check_research_status_exa"]);
    ("registerResearchPaperSearchTool", ["research_paper_search_exa"]);
    ("registerCompanyResearchTool", ["company_research_exa"]);
    ("registerCrawlingTool", ["crawling_exa"]);
    ("registerCompetitorFinderTool", ["competitor_finder_exa"]);
    ("registerLinkedInSearchTool", ["linkedin_search_exa"]);
    ("registerWikipediaSearchTool", ["wikipedia_search_exa"]);
    ("registerGithubSearchTool", ["github_search_exa"]);
    ("registerWebsetManagementTools", Server.Search.websetTools);
    ("registerWebsetSearchTools", Server.Search.websetSearchTools);
    ("registerWebsetEnrichmentTools", Server.Search.websetEnrichmentTools);
    ("registerWebsetItemTools", Server.Search.websetItemTools);
    ("registerWebsetOperationTools", Server.Search.websetOperationTools) ].

(** The functions a table of guarded registrations calls under a filter,
    and the tools it tracks. *)
Definition calledOf (should : string -> bool) (steps : list (string * list string))
    : list string :=
  concat ((fun g => if existsb should (snd g) then [fst g] else []) <$> steps).

Definition trackedOf (should : string -> bool) (steps : list (string * list string))
    : list string :=
  concat ((fun g => filter (fun t => should t = true) (snd g)) <$> steps).

(** The registrations of the websets-only server, as a table: the function
    of each, and the tools its [needs] flag asks about, the two filters by
    name worked out. *)
Definition websetsSteps : list (string * list string) :=
  [ ("registerWebsetManagementTools",
     Server.Websets.websetCoreTools ++ Server.Websets.websetManagementTools);
    ("registerWebsetSearchTools",
     ["create_webset_search_exa"; "get_webset_search_exa";
      "list_webset_searches_exa"; "cancel_webset_search_exa"]);
    ("registerWebsetEnrichmentTools", Server.Websets.websetEnrichmentTools);
    ("registerWebsetItemTools",
     ["list_webset_items_exa"; "get_webset_item_exa"; "search_webset_items_exa"]);
    ("registerWebsetOperationTools",
     Server.Websets.websetAutomationTools ++ Server.Websets.websetSystemTools);
    ("registerWebsetExportTools", Server.Websets.websetExportTools);
    ("registerWebsetBatchTools", Server.Websets.websetBatchTools) ].

(** Only [deep_research_exa] is asked for. *)
Definition onlyDeepResearch : Server.Search.Config :=
  Server.Search.mkConfig None (Some ["deep_research_exa"]) false.

(** *** The contents tool and the item search *)

(** A POST that yields nothing to read: it is rejected, or its body is
    missing. *)
Definition unreadable (reply : Reply Contents.Body) : bool :=
  match reply with
  | Rejected _ => true
  | Resolved (Contents.Missing _) => true
  | Resolved _ => false
  end.

(** Two URLs, all options left out. *)
Definition twoUrls : Contents.Args.t :=
  Contents.Args.mk ["https://a.example"; "https://b.example"]
    None None None None None None.

(** Text asked for with [maxCharacters: 0], highlights with no settings. *)
Definition zeroCharacters : Contents.Args.t :=
  Contents.Args.mk ["https://a.example"]
    (Some (Contents.Options (Contents.TextOptions.mk (Some 0%Z) None)))
    (Some (Contents.Options (Contents.HighlightOptions.mk None None None)))
    None None None None.

Definition pageResult (url : string) (text : option string) : Contents.ExaContentResult.t :=
  Contents.ExaContentResult.mk url None text None None None None None None None None.

(** Two results, and the statuses of three URLs, one of them failed. *)
Definition twoResults : Contents.ExaContentsResponse.t :=
  Contents.ExaContentsResponse.mk "req-2"
    (Some [pageResult "https://a.example" (Some "alpha");
           pageResult "https://b.example" None])
    (Some [Contents.UrlStatus.mk "https://a.example" "success" None;
           Contents.UrlStatus.mk "https://b.example" "success" None;
           Contents.UrlStatus.mk "https://c.example" "error" (Some "blocked")]).

(** The requests of the item search when the pages [pre] announced more:
    the first without a cursor, each next one with the cursor of the page
    before it. *)
Definition pageRequests (websetId : string) (pre : list Items.Page.t)
    : list Items.Effect :=
  Items.Get (Items.itemsUrl websetId) (Items.pageParams None)
  :: ((fun p => Items.Get (Items.itemsUrl websetId)
                  (Items.pageParams (Items.Page.nextCursor p))) <$> pre).

(** The items of pages, in order. *)
Definition itemsOf (pages : list Items.Page.t) : list Items.WebsetItem.t :=
  concat (Items.Page.data <$> pages).

Definition item (id url : string) (type : Items.Nullable string)
    (status : option Items.VerificationStatus) : Items.WebsetItem.t :=
  Items.WebsetItem.mk id "ws1" url Items.Undefined Items.Undefined type
    ((fun s => Items.Verification.mk s Items.Undefined None) <$> status)
    None None "2025-01-01" "2025-01-02".

Definition acme : Items.WebsetItem.t :=
  item "i1" "https://acme.example" (Items.Value "company") (Some Items.verified).

Definition jane : Items.WebsetItem.t :=
  item "i2" "https://jane.example" (Items.Value "person") (Some Items.pending).

Definition bolt : Items.WebsetItem.t :=
  item "i3" "https://bolt.example" (Items.Value "company") None.

(** A first page that announces more under the cursor "c1", and the last
    page. *)
Definition firstPage : Items.Page.t := Items.Page.mk [acme; jane] true (Some "c1").

Definition lastPage : Items.Page.t := Items.Page.mk [bolt] false None.

(** A stand-in for the expressions of the engine: a pattern is read as a
    literal, and "(" does not compile. *)
Definition literalRegExp (pattern : string) : string + (string -> bool) :=
  if String.eqb pattern "("
  then inl "Invalid regular expression: /(/: Unterminated group"
  else inr (includesb pattern).

Definition companies : Items.Filters.t :=
  Items.Filters.mk (Some "company") None None None None.

(** ** Strings *)

Lemma string_app_cons (ch : Ascii.ascii) (a b : string) :
  String ch a +:+ b = String ch (a +:+ b).
Proof. reflexivity. Qed.

Lemma string_app_assoc (a b c : string) : (a +:+ b) +:+ c = a +:+ b +:+ c.
Proof. induction a as [|ch a IH]; [done |]. by rewrite !string_app_cons, IH. Qed.

Lemma string_app_nil_r (a : string) : a +:+ EmptyString = a.
Proof. induction a as [|ch a IH]; [done |]. by rewrite string_app_cons, IH. Qed.

Lemma prefix_app (p rest : string) : String.prefix p (p +:+ rest) = true.
Proof.
  induction p as [|ch p IH].
  - by destruct rest.
  - rewrite string_app_cons. simpl.
    destruct (Ascii.ascii_dec ch ch); [apply IH | done].
Qed.

Lemma prefix_inv (p s : string) :
  String.prefix p s = true -> exists rest, s = p +:+ rest.
Proof.
  revert s. induction p as [|ch p IH]; intros s H.
  - by exists s.
  - destruct s as [|c s]; simpl in H; [done |].
    destruct (Ascii.ascii_dec ch c) as [->|]; [| done].
    destruct (IH _ H) as [rest ->]. by exists rest.
Qed.

Lemma includesb_unfold (needle hay : string) :
  includesb needle hay
  = String.prefix needle hay
    || match hay with
       | EmptyString => false
       | String _ rest => includesb needle rest
       end.
Proof. by destruct hay. Qed.

Lemma includesb_complete (needle pre post : string) :
  includesb needle (pre +:+ needle +:+ post) = true.
Proof.
  induction pre as [|ch pre IH]; rewrite includesb_unfold.
  - change (EmptyString +:+ needle +:+ post) with (needle +:+ post).
    by rewrite prefix_app.
  - rewrite string_app_cons, IH. apply orb_true_r.
Qed.

Lemma includesb_sound (needle hay : string) :
  includesb needle hay = true -> includes needle hay.
Proof.
  induction hay as [|ch hay IH]; rewrite includesb_unfold; intros H;
    apply orb_true_iff in H as [H|H]; try done.
  - destruct (prefix_inv _ _ H) as [rest E]. by exists EmptyString, rest.
  - destruct (prefix_inv _ _ H) as [rest E]. by exists EmptyString, rest.
  - destruct (IH H) as (pre & post & ->). by exists (String ch pre), post.
Qed.

Lemma includesb_spec (needle hay : string) :
  includesb needle hay = true <-> includes needle hay.
Proof.
  split; [apply includesb_sound |].
  intros (pre & post & ->). apply includesb_complete.
Qed.

Lemma includes_mid (pre needle post : string) :
  includes needle (pre +:+ needle +:+ post).
Proof. by exists pre, post. Qed.

Lemma includes_app_r (needle a b : string) :
  includes needle b -> includes needle (a +:+ b).
Proof.
  intros (pre & post & ->). exists (a +:+ pre), post. by rewrite string_app_assoc.
Qed.

Lemma statusUrl_eq (taskId : string) :
  statusUrl taskId = "/research/v0/tasks/" +:+ taskId.
Proof.
  unfold statusUrl, API_CONFIG.ENDPOINTS.RESEARCH_STATUS. cbn.
  by rewrite string_app_nil_r.
Qed.

(** ** The poll loop *)

Lemma decodeStatus_pending (d : ExaResearchResponse.t) :
  decodeStatus d = None <-> terminal d = false.
Proof.
  unfold decodeStatus, terminal.
  destruct (ExaResearchResponse.status d) as [[]|]; try done.
  - split; [|done]. destruct (ExaResearchResponse.result d) as [res|]; [|done].
    destruct (ResearchResult.report res) as [[|]|]; try done;
      destruct (ResearchResult.data res) as [v|]; try done; by destruct (truthy v).
Qed.

Lemma decodeStatus_not_timeout (d : ExaResearchResponse.t) (t : string) :
  decodeStatus d <> Some (TimedOut t).
Proof.
  unfold decodeStatus.
  destruct (ExaResearchResponse.status d) as [[]|]; try done.
  destruct (ExaResearchResponse.result d) as [res|]; [|done].
  destruct (ResearchResult.report res) as [[|]|]; try done;
    destruct (ResearchResult.data res) as [v|]; try done; by destruct (truthy v).
Qed.

Lemma roundOutcome_pending (ev : PollEvent) :
  stillProcessing ev = true -> roundOutcome ev = None.
Proof.
  unfold stillProcessing, roundOutcome. destruct (reply ev); [|done].
  intros H. apply decodeStatus_pending. by destruct (terminal data).
Qed.

Lemma clock_cons (ev : PollEvent) (rounds : list PollEvent) (e : N) :
  clock (ev :: rounds) e = clock rounds (advance e ev).
Proof. reflexivity. Qed.

Lemma clock_app (pre rest : list PollEvent) (e : N) :
  clock (pre ++ rest) e = clock rest (clock pre e).
Proof. apply fold_left_app. Qed.

Lemma advance_lower (e : N) (ev : PollEvent) : e + pollingInterval <= advance e ev.
Proof. unfold advance. lia. Qed.

Lemma clock_lower (rounds : list PollEvent) (e : N) :
  e + N.of_nat (length rounds) * pollingInterval <= clock rounds e.
Proof.
  revert e. induction rounds as [|ev rounds IH]; intros e.
  - simpl. lia.
  - rewrite clock_cons. specialize (IH (advance e ev)).
    pose proof (advance_lower e ev). simpl length. lia.
Qed.

Lemma clock_mono (rounds : list PollEvent) (e : N) : e <= clock rounds e.
Proof. pose proof (clock_lower rounds e). lia. Qed.

Lemma cadence_S (n : nat) (url : string) :
  cadence (S n) url = Sleep pollingInterval :: Get url :: cadence n url.
Proof. reflexivity. Qed.

Lemma cadence_add (n m : nat) (url : string) :
  cadence (n + m) url = cadence n url ++ cadence m url.
Proof.
  induction n as [|n IH]; [done |].
  change (S n + m)%nat with (S (n + m)). rewrite !cadence_S, IH. done.
Qed.

Lemma reads_cadence (n : nat) (url : string) : reads (cadence n url) = n.
Proof.
  induction n as [|n IH]; [done |].
  rewrite cadence_S. unfold reads in *. simpl. by rewrite IH.
Qed.

(** Every read of a cadence comes right after a sleep of the interval. *)
Lemma cadence_lookup_get (n i : nat) (url u : string) :
  cadence n url !! i = Some (Get u) ->
  exists j, i = S j /\ cadence n url !! j = Some (Sleep pollingInterval).
Proof.
  revert i. induction n as [|n IH]; intros i H; [done |].
  rewrite cadence_S in *.
  destruct i as [|[|i]]; simpl in H; [done | by exists 0%nat |].
  destruct (IH _ H) as (j & -> & Hj). by exists (S (S j)).
Qed.

Lemma cadence_lookup_sleep (n i : nat) (url : string) (ms : N) :
  cadence n url !! i = Some (Sleep ms) -> ms = pollingInterval.
Proof.
  revert i. induction n as [|n IH]; intros i H; [done |].
  rewrite cadence_S in H.
  destruct i as [|[|i]]; simpl in H; [by inversion H | done | by eapply IH].
Qed.

(** One more round while the task is still processing. *)
Lemma awaitLoop_continue (t : string) (ev : PollEvent) (rest : list PollEvent) (e : N) :
  e < maxPollingTime -> stillProcessing ev = true ->
  awaitLoop t (ev :: rest) e
  = match awaitLoop t rest (advance e ev) with
    | Some (io, out) => Some (cadence 1 (statusUrl t) ++ io, out)
    | None => None
    end.
Proof.
  intros He Hev. pose proof (roundOutcome_pending _ Hev) as Hr.
  unfold roundOutcome in Hr. simpl.
  apply N.ltb_lt in He. rewrite He.
  destruct (reply ev) as [d|]; [| done]. by rewrite Hr.
Qed.

(** The round that ends the loop. *)
Lemma awaitLoop_stop (t : string) (ev : PollEvent) (rest : list PollEvent)
    (e : N) (out : Outcome) :
  e < maxPollingTime -> roundOutcome ev = Some out ->
  awaitLoop t (ev :: rest) e = Some (cadence 1 (statusUrl t), out).
Proof.
  intros He Hr. unfold roundOutcome in Hr. simpl.
  apply N.ltb_lt in He. rewrite He.
  destruct (reply ev) as [d|]; [by rewrite Hr | by inversion Hr].
Qed.

Lemma awaitLoop_deadline (t : string) (polls : list PollEvent) (e : N) :
  maxPollingTime <= e -> awaitLoop t polls e = Some ([], TimedOut t).
Proof.
  intros He. apply N.ltb_ge in He. destruct polls; simpl; by rewrite He.
Qed.

(** A prefix of processing rounds that begin before the deadline is gone
    through round by round. *)
Lemma awaitLoop_rounds (t : string) (pre rest : list PollEvent) (e : N) :
  Forall (fun ev => stillProcessing ev = true) pre ->
  clock pre e < maxPollingTime ->
  awaitLoop t (pre ++ rest) e
  = match awaitLoop t rest (clock pre e) with
    | Some (io, out) => Some (cadence (length pre) (statusUrl t) ++ io, out)
    | None => None
    end.
Proof.
  revert e. induction pre as [|ev pre IH]; intros e Hpre Hclock.
  - simpl. by destruct (awaitLoop t rest e) as [[io out]|].
  - apply Forall_cons in Hpre as [Hev Hpre]. rewrite clock_cons in *.
    pose proof (clock_mono pre (advance e ev)).
    pose proof (advance_lower e ev).
    change ((ev :: pre) ++ rest) with (ev :: (pre ++ rest)).
    rewrite awaitLoop_continue by (done || unfold pollingInterval in *; lia).
    rewrite IH by done.
    destruct (awaitLoop t rest (clock pre (advance e ev))) as [[io out]|]; [| done].
    change (length (ev :: pre)) with (1 + length pre)%nat.
    by rewrite cadence_add, <- (assoc_L (++)).
Qed.

(** The loop ends whenever the scripted rounds reach the deadline. *)
Lemma awaitLoop_total (t : string) (polls : list PollEvent) (e : N) :
  maxPollingTime <= clock polls e -> is_Some (awaitLoop t polls e).
Proof.
  revert e. induction polls as [|ev rest IH]; intros e H.
  - rewrite awaitLoop_deadline; [by eexists | done].
  - destruct (N.lt_ge_cases e maxPollingTime) as [He|He].
    + destruct (roundOutcome ev) as [out|] eqn:Hr.
      * erewrite awaitLoop_stop by done. by eexists.
      * assert (stillProcessing ev = true) as Hev.
        { unfold roundOutcome, stillProcessing in *.
          destruct (reply ev) as [d|]; [| done].
          apply decodeStatus_pending in Hr. by rewrite Hr. }
        rewrite awaitLoop_continue by done.
        destruct (IH (advance e ev) H) as [[io out] ->]. by eexists.
    + rewrite awaitLoop_deadline; [by eexists | done].
Qed.

Lemma forty_rounds_suffice (polls : list PollEvent) :
  (40 <= length polls)%nat -> maxPollingTime <= clock polls 0.
Proof.
  intros H. pose proof (clock_lower polls 0).
  unfold maxPollingTime, pollingInterval in *. lia.
Qed.

Lemma stoppedBy_round (t : string) (polls : list PollEvent) (e : N) (n : nat)
    (out : Outcome) (ev : PollEvent) :
  (0 < n)%nat -> polls !! pred n = Some ev -> roundOutcome ev = Some out ->
  stoppedBy t polls e n out.
Proof.
  intros Hn Hev Hr. destruct out; simpl; try by eauto.
  unfold roundOutcome in Hr. destruct (reply ev) as [d|]; [| done].
  by apply decodeStatus_not_timeout in Hr.
Qed.

Lemma awaitLoop_shape (t : string) (polls : list PollEvent) (e : N)
    (io : list Effect) (out : Outcome) :
  awaitLoop t polls e = Some (io, out) ->
  exists n : nat,
    io = cadence n (statusUrl t)
    /\ (n <= length polls)%nat
    /\ Forall (fun ev => stillProcessing ev = true) (take (pred n) polls)
    /\ (forall j : nat, (j < n)%nat -> clock (take j polls) e < maxPollingTime)
    /\ stoppedBy t polls e n out.
Proof.
  revert e io out. induction polls as [|ev rest IH]; intros e io out H.
  - destruct (N.lt_ge_cases e maxPollingTime) as [He|He].
    + apply N.ltb_lt in He. simpl in H. by rewrite He in H.
    + rewrite awaitLoop_deadline in H by done. inversion H; subst.
      exists 0%nat. repeat split; try done; lia.
  - destruct (N.lt_ge_cases e maxPollingTime) as [He|He].
    2: { rewrite awaitLoop_deadline in H by done. inversion H; subst.
         exists 0%nat. repeat split; try done; simpl; lia. }
    destruct (roundOutcome ev) as [o|] eqn:Hr.
    + rewrite (awaitLoop_stop _ _ _ _ o) in H by done. inversion H; subst.
      exists 1%nat. repeat split; try done.
      * simpl. lia.
      * intros j Hj. assert (j = 0)%nat as -> by lia. done.
      * apply (stoppedBy_round _ _ _ _ _ ev); [lia | done | done].
    + assert (stillProcessing ev = true) as Hev.
      { unfold roundOutcome, stillProcessing in *.
        destruct (reply ev) as [d|]; [| done].
        apply decodeStatus_pending in Hr. by rewrite Hr. }
      rewrite awaitLoop_continue in H by done.
      destruct (awaitLoop t rest (advance e ev)) as [[io' out']|] eqn:Hrest; [| done].
      inversion H; subst.
      destruct (IH _ _ _ Hrest) as (n & -> & Hlen & Hpre & Htime & Hstop).
      exists (S n). repeat split.
      * simpl length. lia.
      * destruct n as [|n]; simpl; [done |]. by constructor.
      * intros [|j] Hj; [done |]. simpl take. rewrite clock_cons.
        apply Htime. lia.
      * destruct out; simpl in *;
          try (destruct Hstop as (Hn & ev' & Hev' & Hr'); split; [lia |];
               exists ev'; split; [| done];
               destruct n as [|n]; [lia | done]).
        destruct Hstop as (-> & Hclock & Hall). repeat split; try done.
        by constructor.
Qed.

(** While every round begun before the deadline is still processing, the
    loop runs into the deadline. *)
Lemma awaitLoop_times_out (t : string) (polls : list PollEvent) (e : N) :
  (forall pre ev rest, polls = pre ++ ev :: rest ->
     clock pre e < maxPollingTime -> stillProcessing ev = true) ->
  maxPollingTime <= clock polls e ->
  exists n : nat,
    (n <= length polls)%nat
    /\ awaitLoop t polls e = Some (cadence n (statusUrl t), TimedOut t).
Proof.
  revert e. induction polls as [|ev rest IH]; intros e Hproc Hlen.
  - exists 0%nat. split; [done |]. by apply awaitLoop_deadline.
  - destruct (N.lt_ge_cases e maxPollingTime) as [He|He].
    2: { exists 0%nat. split; [simpl; lia |]. by apply awaitLoop_deadline. }
    assert (stillProcessing ev = true) as Hev by (by apply (Hproc [] ev rest)).
    destruct (IH (advance e ev)) as (n & Hn & Hrun).
    + intros pre ev' rest' -> Hclock.
      by apply (Hproc (ev :: pre) ev' rest').
    + done.
    + exists (S n). split; [simpl; lia |].
      rewrite awaitLoop_continue, Hrun by done. done.
Qed.

(** ** Decoding a status response: the poller and the status check *)

Lemma catchBlock_isError (label : string) (e : Error) :
  isError (catchBlock label e) = Some true.
Proof. by destruct e. Qed.

Lemma decodeStatus_failed (d : ExaResearchResponse.t) :
  ExaResearchResponse.status d = Some failed ->
  decodeStatus d
  = Some (Failed (or_string (ExaResearchResponse.error d) "Research task failed")).
Proof. unfold decodeStatus. by intros ->. Qed.

Lemma decodeStatus_malformed (d : ExaResearchResponse.t) :
  completedWithoutPayload d = true ->
  decodeStatus d
  = Some (MalformedResultError
            match ExaResearchResponse.result d with
            | None => "Research completed but no results returned"
            | Some _ => "Research completed but results are in unexpected format"
            end).
Proof.
  unfold decodeStatus, completedWithoutPayload.
  destruct (ExaResearchResponse.status d) as [[]|]; try done.
  destruct (ExaResearchResponse.result d) as [res|]; [| done].
  destruct (ResearchResult.report res) as [[|]|]; try done;
    destruct (ResearchResult.data res) as [v|]; try done; simpl;
    by destruct (truthy v).
Qed.

(** C1, as the code has it: the poller and the status check read a status
    response the same way (the same report, the same data, a failure, a
    wait) except when the status is [completed] and nothing can be
    rendered: there the poller raises an error and the status check echoes
    the status. *)
Theorem readings_agree_unless_completed_without_payload
    (d : ExaResearchResponse.t) :
  if completedWithoutPayload d
  then pollReading d = ReadsError /\ checkReading d = ReadsBareCompleted
  else pollReading d = checkReading d.
Proof.
  unfold completedWithoutPayload, pollReading, checkReading, decodeStatus, decodeCheck.
  destruct (ExaResearchResponse.status d) as [[]|]; try done.
  destruct (ExaResearchResponse.result d) as [res|]; [| done].
  destruct (ResearchResult.report res) as [[|]|]; try done;
    destruct (ResearchResult.data res) as [v|]; try done; simpl;
    by destruct (truthy v).
Qed.

(** C1, as stated, fails on a [completed] status without a result: the
    poller raises an error, and [deep_research_exa] returns an error
    result; [check_research_status_exa] returns a plain result that echoes
    the status. *)
Lemma completed_without_result_is_read_differently :
  pollReading (response (Some completed) None None)
    <> checkReading (response (Some completed) None None)
  /\ deep_research_exa queryX
       (mkProvider (accepted "t1") [answered (response (Some completed) None None)])
     = Some ([Post "/research/v0/tasks" (buildRequest queryX);
              Sleep 3000; Get "/research/v0/tasks/t1"],
             errorResult "Research error: Research completed but no results returned")
  /\ check_research_status_exa "t1" (Resolved (response (Some completed) None None))
     = ([Get "/research/v0/tasks/t1"],
        textResult (JSON_stringify
                      (JObj [("taskId", JStr "t1"); ("status", JStr "completed")]))).
Proof. repeat split. by vm_compute. Qed.

(** ** A failed task *)

(** C3: a status read that reports [failed] ends the wait at once with the
    [Failed] outcome that carries the provider's error (the generic message
    when there is none); the reads are the rounds up to and including that
    one, and the answers scripted after it are never asked for. *)
Theorem failed_ends_the_wait (t : string) (pre rest : list PollEvent)
    (ev : PollEvent) (d : ExaResearchResponse.t) :
  Forall (fun ev => stillProcessing ev = true) pre ->
  clock pre 0 < maxPollingTime ->
  reply ev = Resolved d ->
  ExaResearchResponse.status d = Some failed ->
  exists io,
    awaitCompletion t (pre ++ ev :: rest)
    = Some (io, Failed (or_string (ExaResearchResponse.error d) "Research task failed"))
    /\ io = cadence (S (length pre)) (statusUrl t)
    /\ reads io = S (length pre).
Proof.
  intros Hpre Hclock Hev Hd. eexists. split; [| split; [done |]].
  - unfold awaitCompletion. rewrite awaitLoop_rounds by done.
    erewrite awaitLoop_stop; [| done |].
    + by rewrite <- cadence_add, Nat.add_1_r.
    + unfold roundOutcome. rewrite Hev. by apply decodeStatus_failed.
  - apply reads_cadence.
Qed.

(** The example of the specification: [failed] with "source unavailable" on
    the first check. *)
Lemma failed_ends_the_wait_witness :
  (Forall (fun ev => stillProcessing ev = true) []
   /\ clock [] 0 < maxPollingTime
   /\ reply (answered (response (Some failed) None (Some "source unavailable")))
      = Resolved (response (Some failed) None (Some "source unavailable"))
   /\ ExaResearchResponse.status (response (Some failed) None (Some "source unavailable"))
      = Some failed)
  /\ exists io,
       awaitCompletion "t1"
         ([] ++ answered (response (Some failed) None (Some "source unavailable"))
             :: [processingRound])
       = Some (io, Failed "source unavailable")
       /\ io = cadence 1 (statusUrl "t1")
       /\ reads io = 1%nat.
Proof.
  split.
  - repeat split. constructor.
  - apply (failed_ends_the_wait "t1" []
             [processingRound]
             (answered (response (Some failed) None (Some "source unavailable")))
             (response (Some failed) None (Some "source unavailable")));
      [constructor | reflexivity | reflexivity | reflexivity].
Defined.

(** The handler on a run whose wait ends in the round after [pre]. *)
Lemma deep_research_exa_stop (args : Args.t) (p : Provider) (t : string)
    (pre rest : list PollEvent) (ev : PollEvent) (out : Outcome) :
  submit (submitReply p) = inr t ->
  polls p = pre ++ ev :: rest ->
  Forall (fun ev => stillProcessing ev = true) pre ->
  clock pre 0 < maxPollingTime ->
  roundOutcome ev = Some out ->
  awaitCompletion t (polls p) = Some (cadence (S (length pre)) (statusUrl t), out)
  /\ deep_research_exa args p
     = Some (Post API_CONFIG.ENDPOINTS.RESEARCH (buildRequest args)
               :: cadence (S (length pre)) (statusUrl t),
             settle "Research error" (conclude args t out)).
Proof.
  intros Hsub Hpolls Hpre Hclock Hout.
  assert (awaitCompletion t (polls p)
          = Some (cadence (S (length pre)) (statusUrl t), out)) as Hrun.
  { unfold awaitCompletion. rewrite Hpolls, awaitLoop_rounds by done.
    erewrite awaitLoop_stop by done.
    by rewrite <- cadence_add, Nat.add_1_r. }
  split; [done |]. unfold deep_research_exa. by rewrite Hsub, Hrun.
Qed.

(** C2, as the code has it: when a status read reports [failed], the call
    resolves to a result whose text is "Research error: " followed by the
    provider's error (or by the generic message), and the error flag of
    that result is set. *)
Theorem failed_task_is_an_error_result (args : Args.t) (p : Provider) (t : string)
    (pre rest : list PollEvent) (ev : PollEvent) (d : ExaResearchResponse.t) :
  submit (submitReply p) = inr t ->
  polls p = pre ++ ev :: rest ->
  Forall (fun ev => stillProcessing ev = true) pre ->
  clock pre 0 < maxPollingTime ->
  reply ev = Resolved d ->
  ExaResearchResponse.status d = Some failed ->
  exists io r,
    deep_research_exa args p = Some (io, r)
    /\ textOf r
       = "Research error: "
         +:+ or_string (ExaResearchResponse.error d) "Research task failed"
    /\ isError r = Some true.
Proof.
  intros Hsub Hpolls Hpre Hclock Hev Hd.
  destruct (deep_research_exa_stop args p t pre rest ev
              (Failed (or_string (ExaResearchResponse.error d) "Research task failed")))
    as [_ Hrun]; try done.
  { unfold roundOutcome. rewrite Hev. by apply decodeStatus_failed. }
  rewrite Hrun. by do 2 eexists.
Qed.

Lemma failed_task_is_an_error_result_witness :
  (submit (submitReply (mkProvider (accepted "t1")
             [answered (response (Some failed) None None)])) = inr "t1"
   /\ polls (mkProvider (accepted "t1") [answered (response (Some failed) None None)])
      = [] ++ answered (response (Some failed) None None) :: []
   /\ Forall (fun ev => stillProcessing ev = true) []
   /\ clock [] 0 < maxPollingTime
   /\ reply (answered (response (Some failed) None None))
      = Resolved (response (Some failed) None None)
   /\ ExaResearchResponse.status (response (Some failed) None None) = Some failed)
  /\ exists io r,
       deep_research_exa queryX
         (mkProvider (accepted "t1") [answered (response (Some failed) None None)])
       = Some (io, r)
       /\ textOf r = "Research error: Research task failed"
       /\ isError r = Some true.
Proof.
  split.
  - repeat split. constructor.
  - apply (failed_task_is_an_error_result queryX
             (mkProvider (accepted "t1") [answered (response (Some failed) None None)])
             "t1" [] [] (answered (response (Some failed) None None))
             (response (Some failed) None None));
      [reflexivity | reflexivity | constructor | reflexivity | reflexivity | reflexivity].
Defined.

(** C2, as stated, fails: on a first status read that reports [failed]
    with "source unavailable" the returned result has its error flag set. *)
Lemma failed_task_sets_the_error_flag :
  exists io r,
    deep_research_exa queryX
      (mkProvider (accepted "t1")
         [answered (response (Some failed) None (Some "source unavailable"))])
    = Some (io, r)
    /\ r = errorResult "Research error: source unavailable"
    /\ isError r <> None.
Proof. do 2 eexists. split; [by vm_compute |]. split; [reflexivity | done]. Qed.

(** ** The deadline *)

(** C4: while every status read made in a round that begins before the
    deadline answers with a status that is not terminal, the call goes on
    to the deadline and returns the bounded-wait notice: a result without
    the error flag whose text holds the task identifier.  The rounds gone
    through are those begun before the deadline and no other: each of the
    [n] rounds begins before it, the elapsed time after them has reached
    it, and there are between one and forty of them. *)
Theorem processing_until_the_deadline_times_out (args : Args.t) (p : Provider)
    (t : string) :
  submit (submitReply p) = inr t ->
  (forall pre ev rest, polls p = pre ++ ev :: rest ->
     clock pre 0 < maxPollingTime -> stillProcessing ev = true) ->
  maxPollingTime <= clock (polls p) 0 ->
  exists n r,
    awaitCompletion t (polls p) = Some (cadence n (statusUrl t), TimedOut t)
    /\ deep_research_exa args p
       = Some (Post API_CONFIG.ENDPOINTS.RESEARCH (buildRequest args)
                 :: cadence n (statusUrl t), r)
    /\ r = textResult (timeoutText t)
    /\ isError r = None
    /\ includes t (textOf r)
    /\ (0 < n <= 40)%nat
    /\ (n <= length (polls p))%nat
    /\ (forall j : nat, (j < n)%nat -> clock (take j (polls p)) 0 < maxPollingTime)
    /\ maxPollingTime <= clock (take n (polls p)) 0.
Proof.
  intros Hsub Hproc Hlen.
  destruct (awaitLoop_times_out t (polls p) 0 Hproc Hlen) as (n & _ & Hrun).
  destruct (awaitLoop_shape _ _ _ _ _ Hrun) as (m & Hio & Hm & _ & Htime & Hstop).
  assert (n = m) as <-.
  { apply (f_equal reads) in Hio. by rewrite !reads_cadence in Hio. }
  destruct Hstop as (_ & Hreached & _).
  exists n, (textResult (timeoutText t)).
  split; [done |]. split.
  { unfold deep_research_exa, awaitCompletion. by rewrite Hsub, Hrun. }
  split; [done |]. split; [done |]. split; [apply includes_mid |].
  split; [| by repeat split].
  destruct n as [|k].
  { simpl in Hreached. unfold maxPollingTime in Hreached. lia. }
  split; [lia |].
  specialize (Htime k (Nat.lt_succ_diag_r k)).
  pose proof (clock_lower (take k (polls p)) 0) as Hlow.
  rewrite length_take in Hlow.
  unfold maxPollingTime, pollingInterval in *. lia.
Qed.

(** Forty rounds of [processing] reach the deadline. *)
Lemma processing_until_the_deadline_times_out_witness :
  (submit (submitReply alwaysProcessing) = inr "t1"
   /\ (forall pre ev rest,
         polls alwaysProcessing = pre ++ ev :: rest ->
         clock pre 0 < maxPollingTime -> stillProcessing ev = true)
   /\ maxPollingTime <= clock (polls alwaysProcessing) 0)
  /\ exists n r,
       awaitCompletion "t1" (polls alwaysProcessing)
       = Some (cadence n (statusUrl "t1"), TimedOut "t1")
       /\ deep_research_exa queryX alwaysProcessing
          = Some (Post API_CONFIG.ENDPOINTS.RESEARCH (buildRequest queryX)
                    :: cadence n (statusUrl "t1"), r)
       /\ r = textResult (timeoutText "t1")
       /\ isError r = None
       /\ includes "t1" (textOf r)
       /\ (0 < n <= 40)%nat
       /\ (n <= length (polls alwaysProcessing))%nat
       /\ (forall j : nat, (j < n)%nat ->
             clock (take j (polls alwaysProcessing)) 0 < maxPollingTime)
       /\ maxPollingTime <= clock (take n (polls alwaysProcessing)) 0.
Proof.
  assert (forall pre ev rest,
            polls alwaysProcessing = pre ++ ev :: rest ->
            clock pre 0 < maxPollingTime -> stillProcessing ev = true) as Hproc.
  { intros pre ev rest Heq _.
    assert (ev ∈ replicate 40 processingRound) as Hin.
    { change (replicate 40 processingRound) with (polls alwaysProcessing).
      rewrite Heq. apply elem_of_app. right. left. }
    apply elem_of_replicate in Hin as [-> _]. reflexivity. }
  split.
  - split; [reflexivity |]. split; [exact Hproc |]. by vm_compute.
  - apply (processing_until_the_deadline_times_out queryX alwaysProcessing "t1");
      [reflexivity | exact Hproc | by vm_compute].
Defined.

(** C4, as stated, fails.  Thirty-nine reads answer [processing]; the
    fortieth round begins at 117 s, before the deadline, and its read is
    answered at 125 s with [completed] and a report.  No read has returned
    a terminal status before the deadline elapsed, and yet the call returns
    the report, not the bounded-wait notice. *)
Lemma report_read_across_the_deadline_is_returned :
  Forall (fun ev => stillProcessing ev = true) (take 39 (polls lateReport))
  /\ length (polls lateReport) = 40%nat
  /\ clock (take 39 (polls lateReport)) 0 = 117000
  /\ clock (take 40 (polls lateReport)) 0 = 125000
  /\ maxPollingTime = 120000
  /\ deep_research_exa queryX lateReport
     = Some (Post API_CONFIG.ENDPOINTS.RESEARCH (buildRequest queryX)
               :: cadence 40 (statusUrl "t1"),
             textResult (reportText "X" "done" "t1"))
  /\ textResult (reportText "X" "done" "t1") <> textResult (timeoutText "t1").
Proof.
  split; [by repeat constructor |].
  split; [reflexivity |]. split; [by vm_compute |]. split; [by vm_compute |].
  split; [reflexivity |]. split; [by vm_compute |].
  intros H. by vm_compute in H.
Qed.

(** The deadline is tested at the loop head only: a round begun before it
    is gone through, and its read counts even when the answer comes as the
    deadline is reached. *)
Example read_of_the_last_round_counts :
  clock (replicate 39 processingRound) 0 = 117000
  /\ clock (replicate 39 processingRound
            ++ [answered (response (Some completed) (reportOf "done") None)]) 0
     = 120000
  /\ awaitCompletion "t1"
       (replicate 39 processingRound
        ++ [answered (response (Some completed) (reportOf "done") None)])
     = Some (cadence 40 (statusUrl "t1"), Completed "req-1" (Report "done")).
Proof. by vm_compute. Qed.

(** The call as a whole ends as well. *)
Lemma deep_research_exa_total (args : Args.t) (p : Provider) :
  (40 <= length (polls p))%nat -> is_Some (deep_research_exa args p).
Proof.
  intros Hlen. unfold deep_research_exa.
  destruct (submit (submitReply p)) as [e|t]; [by eexists |].
  destruct (awaitLoop_total t (polls p) 0 (forty_rounds_suffice _ Hlen))
    as [[io out] Hrun].
  unfold awaitCompletion. rewrite Hrun. by eexists.
Qed.

(** ** Submission *)

(** C5: the submission either yields the non-empty task identifier of the
    response, and the call goes on to poll with it, or it throws and the
    call ends there with an error result, no status read made; a response
    without a body, without a task identifier or with an empty one
    throws. *)
Theorem submit_yields_a_task_id_or_fails (args : Args.t) (p : Provider) :
  match submit (submitReply p) with
  | inr t =>
      t <> EmptyString
      /\ (exists d, submitReply p = Resolved (Some d)
                    /\ ExaResearchResponse.taskId d = Some t)
      /\ deep_research_exa args p
         = match awaitCompletion t (polls p) with
           | Some (io, out) =>
               Some (Post API_CONFIG.ENDPOINTS.RESEARCH (buildRequest args) :: io,
                     settle "Research error" (conclude args t out))
           | None => None
           end
  | inl e =>
      deep_research_exa args p
      = Some ([Post API_CONFIG.ENDPOINTS.RESEARCH (buildRequest args)],
              catchBlock "Research error" e)
      /\ isError (catchBlock "Research error" e) = Some true
  end
  /\ submit (Resolved None)
     = inl (PlainError "Failed to start research task - no task ID received")
  /\ (forall rid st res err,
        submit (Resolved (Some (ExaResearchResponse.mk rid None st res err)))
        = inl (PlainError "Failed to start research task - no task ID received"))
  /\ (forall rid st res err,
        submit (Resolved (Some (ExaResearchResponse.mk rid (Some EmptyString) st res err)))
        = inl (PlainError "Failed to start research task - no task ID received")).
Proof.
  split; [| done].
  unfold deep_research_exa.
  destruct (submit (submitReply p)) as [e|t] eqn:Hsub.
  - split; [done | apply catchBlock_isError].
  - unfold submit in Hsub.
    destruct (submitReply p) as [[d|]|]; try done.
    destruct (ExaResearchResponse.taskId d) as [[|c r]|] eqn:Ht; try done.
    inversion Hsub; subst. split; [done |]. split; [by exists d | done].
Qed.

(** ** A completed task without a result *)

(** C6: a status read that reports [completed] with no result, or with a
    result holding neither a report nor data, ends the wait with a
    [MalformedResultError]; the call returns an error result, and no read
    follows. *)
Theorem completed_without_payload_is_fatal (args : Args.t) (p : Provider)
    (t : string) (pre rest : list PollEvent) (ev : PollEvent)
    (d : ExaResearchResponse.t) :
  submit (submitReply p) = inr t ->
  polls p = pre ++ ev :: rest ->
  Forall (fun ev => stillProcessing ev = true) pre ->
  clock pre 0 < maxPollingTime ->
  reply ev = Resolved d ->
  completedWithoutPayload d = true ->
  exists msg io r,
    awaitCompletion t (polls p) = Some (io, MalformedResultError msg)
    /\ msg = match ExaResearchResponse.result d with
             | None => "Research completed but no results returned"
             | Some _ => "Research completed but results are in unexpected format"
             end
    /\ reads io = S (length pre)
    /\ deep_research_exa args p
       = Some (Post API_CONFIG.ENDPOINTS.RESEARCH (buildRequest args) :: io, r)
    /\ r = errorResult ("Research error: " +:+ msg)
    /\ isError r = Some true.
Proof.
  intros Hsub Hpolls Hpre Hclock Hev Hd.
  pose proof (decodeStatus_malformed d Hd) as Hdec.
  edestruct (deep_research_exa_stop args p t pre rest ev) as [Hwait Hrun]; try done.
  { unfold roundOutcome. rewrite Hev. exact Hdec. }
  do 3 eexists. split; [exact Hwait |]. split; [done |].
  split; [apply reads_cadence |]. split; [exact Hrun |]. done.
Qed.

Lemma completed_without_payload_is_fatal_witness :
  (submit (submitReply malformedScript) = inr "t1"
   /\ polls malformedScript
      = [processingRound] ++ answered emptyReport
        :: [answered (response (Some completed) (reportOf "late") None)]
   /\ Forall (fun ev => stillProcessing ev = true) [processingRound]
   /\ clock [processingRound] 0 < maxPollingTime
   /\ reply (answered emptyReport) = Resolved emptyReport
   /\ completedWithoutPayload emptyReport = true)
  /\ exists msg io r,
       awaitCompletion "t1" (polls malformedScript)
       = Some (io, MalformedResultError msg)
       /\ msg = "Research completed but results are in unexpected format"
       /\ reads io = 2%nat
       /\ deep_research_exa queryX malformedScript
          = Some (Post API_CONFIG.ENDPOINTS.RESEARCH (buildRequest queryX) :: io, r)
       /\ r = errorResult ("Research error: " +:+ msg)
       /\ isError r = Some true.
Proof.
  split.
  - repeat split. by repeat constructor.
  - apply (completed_without_payload_is_fatal queryX malformedScript "t1"
             [processingRound]
             [answered (response (Some completed) (reportOf "late") None)]
             (answered emptyReport) emptyReport);
      [reflexivity | reflexivity | by repeat constructor
       | reflexivity | reflexivity | reflexivity].
Defined.

(** ** The result formatter *)

(** When the loop body takes the report branch and when the data branch: a
    report counts when it is not empty, data when it is truthy. *)
Lemma decodeStatus_report (rid : string) (t : option string) (c : Ascii.ascii)
    (r : string) (v : option Json) (err : option string) :
  decodeStatus (ExaResearchResponse.mk rid t (Some completed)
                  (Some (ResearchResult.mk (Some (String c r)) v)) err)
  = Some (Completed rid (Report (String c r))).
Proof. reflexivity. Qed.

Lemma decodeStatus_data (d : ExaResearchResponse.t) (res : ResearchResult.t) (v : Json) :
  ExaResearchResponse.status d = Some completed ->
  ExaResearchResponse.result d = Some res ->
  truthy_string (ResearchResult.report res) = false ->
  ResearchResult.data res = Some v ->
  truthy v = true ->
  decodeStatus d = Some (Completed (ExaResearchResponse.requestId d) (Data v)).
Proof.
  unfold decodeStatus. intros -> -> Hr -> ->.
  by destruct (ResearchResult.report res) as [[|]|].
Qed.

Lemma formattedResults_members (args : Args.t) (t rid : string) (v : Json) :
  member "requestId" (toJSON (formattedResults args t rid v)) = Some (JStr rid)
  /\ member "taskId" (toJSON (formattedResults args t rid v)) = Some (JStr t)
  /\ member "researchTopic" (toJSON (formattedResults args t rid v))
     = Some (JStr (Args.query args))
  /\ member "structuredData" (toJSON (formattedResults args t rid v)) = Some v
  /\ member "schemaUsed" (toJSON (formattedResults args t rid v))
     = JBool <$> schemaUsed args
  /\ keys (toJSON (formattedResults args t rid v))
     = ["requestId"; "taskId"; "researchTopic"; "status"; "structuredData"]
       ++ match schemaUsed args with
          | Some _ => ["schemaUsed"]
          | None => []
          end.
Proof.
  unfold formattedResults, toJSON. by destruct (schemaUsed args).
Qed.

(** C7, as the code has it: a report is rendered as a text block that
    begins with the title line "# Research Report: " and the query, goes on
    with the report, and ends with a footer that names the task identifier;
    data is rendered as a JSON document that holds the data, unchanged, as
    [structuredData], the task identifier, and no member for a report.  In
    both cases the error flag is not set. *)
Theorem completed_outcome_rendering (args : Args.t) (t rid : string) (p : Payload) :
  match p with
  | Report r =>
      exists text,
        conclude args t (Completed rid (Report r)) = inr (textResult text)
        /\ text = ("# Research Report: " +:+ Args.query args)
                  +:+ (nl +:+ nl +:+ r)
                  +:+ (nl +:+ nl +:+ "---" +:+ nl +:+ "*Research ID: " +:+ t +:+ "*")
        /\ startsWith ("# Research Report: " +:+ Args.query args) text
        /\ includes r text
        /\ includes t text
        /\ isError (textResult text) = None
  | Data v =>
      exists doc,
        conclude args t (Completed rid (Data v))
        = inr (textResult (JSON_stringify doc))
        /\ member "structuredData" doc = Some v
        /\ member "taskId" doc = Some (JStr t)
        /\ keys doc
           = ["requestId"; "taskId"; "researchTopic"; "status"; "structuredData"]
             ++ match schemaUsed args with
          | Some _ => ["schemaUsed"]
          | None => []
          end
        /\ isError (textResult (JSON_stringify doc)) = None
  end.
Proof.
  destruct p as [r|v].
  - eexists. split; [reflexivity |]. split; [| split; [| split; [| split]]].
    + unfold reportText. by rewrite !string_app_assoc.
    + eexists. unfold reportText. by rewrite !string_app_assoc.
    + unfold reportText. do 3 apply includes_app_r. apply includes_mid.
    + unfold reportText. do 9 apply includes_app_r. apply includes_mid.
    + done.
  - exists (toJSON (formattedResults args t rid v)).
    destruct (formattedResults_members args t rid v) as (_ & ? & _ & ? & _ & ?).
    done.
Qed.

(** C7, as stated, fails: for the query "X", the report "R" and the task
    "t1", what follows the report in the rendered text is the rule and the
    line of the task identifier; the query is not in it. *)
Lemma report_footer_lacks_the_query :
  conclude queryX "t1" (Completed "req-1" (Report "R"))
  = inr (textResult
           (("# Research Report: X" +:+ nl +:+ nl +:+ "R")
            +:+ (nl +:+ nl +:+ "---" +:+ nl +:+ "*Research ID: t1*")))
  /\ ~ includes "X" (nl +:+ nl +:+ "---" +:+ nl +:+ "*Research ID: t1*").
Proof.
  split; [reflexivity |].
  intros H%includesb_spec. by vm_compute in H.
Qed.

(** C8 at the input where the code departs from it: with neither
    [outputSchema] nor [llmGenerateSchema] passed, the flag is [undefined]
    and the JSON document has no [schemaUsed] member. *)
Lemma schemaUsed_is_omitted_without_schema_arguments :
  Args.outputSchema queryX = None
  /\ Args.llmGenerateSchema queryX = None
  /\ exists doc,
       conclude queryX "t1" (Completed "req-1" (Data (JObj [("answer", JNum 42)])))
       = inr (textResult (JSON_stringify doc))
       /\ doc = JObj [("requestId", JStr "req-1"); ("taskId", JStr "t1");
                      ("researchTopic", JStr "X"); ("status", JStr "completed");
                      ("structuredData", JObj [("answer", JNum 42)])]
       /\ member "schemaUsed" doc = None.
Proof. do 2 (split; [reflexivity |]). eexists. by repeat split. Qed.

(** With [llmGenerateSchema: false] passed, the flag is in the document. *)
Example schemaUsed_is_false_when_declined :
  conclude (Args.mk "X" None None None (Some false) None None None None None) "t1"
    (Completed "req-1" (Data (JObj [("answer", JNum 42)])))
  = inr (textResult (JSON_stringify
           (JObj [("requestId", JStr "req-1"); ("taskId", JStr "t1");
                  ("researchTopic", JStr "X"); ("status", JStr "completed");
                  ("structuredData", JObj [("answer", JNum 42)]);
                  ("schemaUsed", JBool false)]))).
Proof. reflexivity. Qed.

(** The data branch of the loop body, on a response that carries data and
    no report. *)
Example data_is_decoded :
  decodeStatus (response (Some completed) (dataOf (JObj [("answer", JNum 42)])) None)
  = Some (Completed "req-1" (Data (JObj [("answer", JNum 42)]))).
Proof. reflexivity. Qed.

(** The flag is a member of the document exactly when a schema argument
    was passed. *)
Lemma schemaUsed_member (args : Args.t) (t rid : string) (v : Json) :
  member "schemaUsed" (toJSON (formattedResults args t rid v))
  = match Args.outputSchema args, Args.llmGenerateSchema args with
    | Some _, _ => Some (JBool true)
    | None, Some b => Some (JBool b)
    | None, None => None
    end.
Proof.
  destruct (formattedResults_members args t rid v) as (_ & _ & _ & _ & -> & _).
  unfold schemaUsed.
  by destruct (Args.outputSchema args), (Args.llmGenerateSchema args).
Qed.

(** ** The cadence of the loop *)

(** The wait always ends: forty scripted rounds reach the deadline. *)
Lemma awaitCompletion_total (t : string) (polls : list PollEvent) :
  (40 <= length polls)%nat -> is_Some (awaitCompletion t polls).
Proof. intros H. by apply awaitLoop_total, forty_rounds_suffice. Qed.

(** C9: the loop goes through rounds of one sleep of the polling interval,
    3000 ms, followed by one status read, so every read comes right after
    such a sleep, the first one too, and every sleep is of that same
    interval; a round begins only while less than 120000 ms have elapsed,
    and the rounds go on while the reads report no terminal status: the
    loop stops after the first round that does not, or at the first loop
    head where the elapsed time has reached the deadline. *)
Theorem poll_cadence (t : string) (polls : list PollEvent) :
  maxPollingTime <= clock polls 0 ->
  pollingInterval = 3000 /\ maxPollingTime = 120000
  /\ exists (io : list Effect) (out : Outcome) (n : nat),
       awaitCompletion t polls = Some (io, out)
       /\ io = cadence n (statusUrl t)
       /\ reads io = n
       /\ (forall i u, io !! i = Some (Get u) ->
             exists j, i = S j /\ io !! j = Some (Sleep 3000))
       /\ (forall i ms, io !! i = Some (Sleep ms) -> ms = 3000)
       /\ (n <= length polls)%nat
       /\ Forall (fun ev => stillProcessing ev = true) (take (pred n) polls)
       /\ (forall j : nat, (j < n)%nat -> clock (take j polls) 0 < 120000)
       /\ stoppedBy t polls 0 n out.
Proof.
  intros Hlen. do 2 (split; [reflexivity |]).
  destruct (awaitLoop_total t polls 0 Hlen) as [[io out] Hrun].
  destruct (awaitLoop_shape _ _ _ _ _ Hrun) as (n & -> & Hn & Hpre & Htime & Hstop).
  exists (cadence n (statusUrl t)), out, n.
  split; [exact Hrun |]. split; [reflexivity |].
  split; [apply reads_cadence |].
  split; [intros i u; apply cadence_lookup_get |].
  split; [intros i ms; apply cadence_lookup_sleep |].
  done.
Qed.

(** The example of the specification, scripted past the deadline:
    [processing], [processing], then [completed] with a report. *)
Lemma poll_cadence_witness :
  maxPollingTime <= clock reportScript 0
  /\ (pollingInterval = 3000 /\ maxPollingTime = 120000
      /\ exists (io : list Effect) (out : Outcome) (n : nat),
           awaitCompletion "t1" reportScript = Some (io, out)
           /\ io = cadence n (statusUrl "t1")
           /\ reads io = n
           /\ (forall i u, io !! i = Some (Get u) ->
                 exists j, i = S j /\ io !! j = Some (Sleep 3000))
           /\ (forall i ms, io !! i = Some (Sleep ms) -> ms = 3000)
           /\ (n <= length reportScript)%nat
           /\ Forall (fun ev => stillProcessing ev = true)
                (take (pred n) reportScript)
           /\ (forall j : nat, (j < n)%nat ->
                 clock (take j reportScript) 0 < 120000)
           /\ stoppedBy "t1" reportScript 0 n out).
Proof.
  split; [by vm_compute |].
  apply (poll_cadence "t1" reportScript). by vm_compute.
Defined.

(** The run of that script: three rounds, then the report. *)
Example report_after_three_rounds :
  awaitCompletion "t1" reportScript
  = Some (cadence 3 (statusUrl "t1"), Completed "req-1" (Report "...")).
Proof. reflexivity. Qed.

(** The example of the specification, end to end: the call returns the
    report, under the title line of the query. *)
Example research_report_X :
  deep_research_exa queryX
    (mkProvider (accepted "t1")
       [processingRound; processingRound;
        answered (response (Some completed) (reportOf "...") None)])
  = Some ([Post "/research/v0/tasks" (buildRequest queryX);
           Sleep 3000; Get "/research/v0/tasks/t1";
           Sleep 3000; Get "/research/v0/tasks/t1";
           Sleep 3000; Get "/research/v0/tasks/t1"],
          textResult ("# Research Report: X" +:+ nl +:+ nl +:+ "..." +:+ nl +:+ nl
                      +:+ "---" +:+ nl +:+ "*Research ID: t1*")).
Proof. reflexivity. Qed.

(** ** The tool registry *)

Import Server.







(** The counts: all forty tools of the search and websets server, all
    forty-seven of the websets server. *)
Example empty_enabledTools_counts :
  length (registeredTools (Search.start (Search.mkConfig None (Some []) false))) = 40%nat
  /\ length (registeredTools (Websets.register (Some []))) = 47%nat
  /\ length (calls (Websets.register (Some []))) = 7%nat.
Proof. by vm_compute. Qed.

(** With [ENABLED_TOOLS] set, an absent list and an empty one part ways in
    the websets server: the variable is read only when the list is
    absent. *)
Example enabled_tools_from_the_environment :
  registeredTools (Websets.register
    (Websets.finalEnabledTools (Websets.mkConfig "key" None false)
       (Websets.mkEnv None (Some "get_event_exa,list_events_exa") None)))
  = ["list_events_exa"; "get_event_exa"]
  /\ length (registeredTools (Websets.register
       (Websets.finalEnabledTools (Websets.mkConfig "key" (Some []) false)
          (Websets.mkEnv None (Some "get_event_exa,list_events_exa") None))))
     = 47%nat.
Proof. by vm_compute. Qed.

(** ** More on the research tools *)

Lemma reads_post_cadence (url : string) (body : ExaResearchRequest.t) (n : nat)
    (u : string) :
  reads (Post url body :: cadence n u) = n.
Proof. exact (reads_cadence n u). Qed.

(** The rounds of a run are bounded by the deadline: each takes the polling
    interval at least. *)
Lemma awaitLoop_rounds_bound (t : string) (polls : list PollEvent)
    (io : list Effect) (out : Outcome) :
  awaitLoop t polls 0 = Some (io, out) ->
  exists n : nat, io = cadence n (statusUrl t) /\ (n <= 40)%nat.
Proof.
  intros Hrun.
  destruct (awaitLoop_shape _ _ _ _ _ Hrun) as (n & -> & Hn & _ & Htime & _).
  exists n. split; [done |].
  destruct n as [|m]; [lia |].
  specialize (Htime m ltac:(lia)).
  pose proof (clock_lower (take m polls) 0) as Hlow.
  rewrite length_take in Hlow.
  unfold maxPollingTime, pollingInterval in *. lia.
Qed.

(** X1: whatever the provider answers and however long it takes, a call of
    [deep_research_exa] makes one POST and then at most forty rounds of
    sleep and status read. *)
Theorem deep_research_exa_reads_at_most_forty_times (args : Args.t) (p : Provider)
    (io : list Effect) (r : ToolResult) :
  deep_research_exa args p = Some (io, r) ->
  exists (n : nat) (url : string),
    io = Post API_CONFIG.ENDPOINTS.RESEARCH (buildRequest args) :: cadence n url
    /\ (n <= 40)%nat
    /\ reads io = n.
Proof.
  unfold deep_research_exa, awaitCompletion. intros H.
  destruct (submit (submitReply p)) as [e|t].
  - inversion H; subst. exists 0%nat, EmptyString.
    split; [done |]. split; [lia | done].
  - destruct (awaitLoop t (polls p) 0) as [[io' out]|] eqn:Hrun; [| done].
    inversion H; subst.
    destruct (awaitLoop_rounds_bound _ _ _ _ Hrun) as (n & -> & Hn).
    exists n, (statusUrl t). split; [done |]. split; [done |].
    apply reads_post_cadence.
Qed.

Lemma deep_research_exa_reads_at_most_forty_times_witness :
  deep_research_exa queryX alwaysProcessing
  = Some (Post API_CONFIG.ENDPOINTS.RESEARCH (buildRequest queryX)
            :: cadence 40 (statusUrl "t1"),
          textResult (timeoutText "t1"))
  /\ exists (n : nat) (url : string),
       Post API_CONFIG.ENDPOINTS.RESEARCH (buildRequest queryX)
         :: cadence 40 (statusUrl "t1")
       = Post API_CONFIG.ENDPOINTS.RESEARCH (buildRequest queryX) :: cadence n url
       /\ (n <= 40)%nat
       /\ reads (Post API_CONFIG.ENDPOINTS.RESEARCH (buildRequest queryX)
                   :: cadence 40 (statusUrl "t1")) = n.
Proof.
  split; [by vm_compute |].
  apply (deep_research_exa_reads_at_most_forty_times queryX alwaysProcessing
           _ (textResult (timeoutText "t1"))).
  by vm_compute.
Defined.

(** X2: a status read that the transport rejects ends the call at once, with
    no retry: the result is an error result that prints the HTTP status
    ("unknown" when there is none) and the provider's message, or the
    message of the error when the provider sent none. *)
Theorem rejected_status_read_fails_fast (args : Args.t) (p : Provider) (t : string)
    (pre rest : list PollEvent) (ev : PollEvent) (status : option N)
    (dataMessage : option string) (message : string) :
  submit (submitReply p) = inr t ->
  polls p = pre ++ ev :: rest ->
  Forall (fun ev => stillProcessing ev = true) pre ->
  clock pre 0 < maxPollingTime ->
  reply ev = Rejected (AxiosError status dataMessage message) ->
  exists io r,
    deep_research_exa args p = Some (io, r)
    /\ reads io = S (length pre)
    /\ r = errorResult ("Research error (" +:+ statusCode status +:+ "): "
                        +:+ or_string dataMessage message)
    /\ isError r = Some true.
Proof.
  intros Hsub Hpolls Hpre Hclock Hev.
  destruct (deep_research_exa_stop args p t pre rest ev
              (TransportError (AxiosError status dataMessage message)))
    as [_ Hrun]; try done.
  { unfold roundOutcome. by rewrite Hev. }
  do 2 eexists. split; [exact Hrun |].
  split; [apply reads_post_cadence |]. done.
Qed.

Lemma rejected_status_read_fails_fast_witness :
  (submit (submitReply outageScript) = inr "t1"
   /\ polls outageScript
      = [processingRound] ++ mkPoll 0 0 (Rejected unavailable)
        :: [answered (response (Some completed) (reportOf "late") None)]
   /\ Forall (fun ev => stillProcessing ev = true) [processingRound]
   /\ clock [processingRound] 0 < maxPollingTime
   /\ reply (mkPoll 0 0 (Rejected unavailable))
      = Rejected (AxiosError (Some 503) None "Request failed with status code 503"))
  /\ exists io r,
       deep_research_exa queryX outageScript = Some (io, r)
       /\ reads io = 2%nat
       /\ r = errorResult ("Research error (" +:+ statusCode (Some 503) +:+ "): "
                           +:+ or_string None "Request failed with status code 503")
       /\ isError r = Some true.
Proof.
  split.
  - repeat split. by repeat constructor.
  - apply (rejected_status_read_fails_fast queryX outageScript "t1"
             [processingRound]
             [answered (response (Some completed) (reportOf "late") None)]
             (mkPoll 0 0 (Rejected unavailable)));
      [reflexivity | reflexivity | by repeat constructor | reflexivity | reflexivity].
Defined.

(** X3: when a status read made in time reports [completed] with a report
    that is not empty, the call returns the rendered report without the
    error flag, whether or not the result holds data as well. *)
Theorem completed_report_is_returned (args : Args.t) (p : Provider) (t : string)
    (pre rest : list PollEvent) (ev : PollEvent) (d : ExaResearchResponse.t)
    (res : ResearchResult.t) (c : Ascii.ascii) (r : string) :
  submit (submitReply p) = inr t ->
  polls p = pre ++ ev :: rest ->
  Forall (fun ev => stillProcessing ev = true) pre ->
  clock pre 0 < maxPollingTime ->
  reply ev = Resolved d ->
  ExaResearchResponse.status d = Some completed ->
  ExaResearchResponse.result d = Some res ->
  ResearchResult.report res = Some (String c r) ->
  exists io,
    deep_research_exa args p
    = Some (io, textResult (reportText (Args.query args) (String c r) t))
    /\ reads io = S (length pre).
Proof.
  intros Hsub Hpolls Hpre Hclock Hev Hst Hres Hrep.
  destruct (deep_research_exa_stop args p t pre rest ev
              (Completed (ExaResearchResponse.requestId d) (Report (String c r))))
    as [_ Hrun]; try done.
  { unfold roundOutcome, decodeStatus. by rewrite Hev, Hst, Hres, Hrep. }
  eexists. split; [exact Hrun |]. apply reads_post_cadence.
Qed.

Lemma completed_report_is_returned_witness :
  (submit (submitReply (mkProvider (accepted "t1") [processingRound; answered reportAndData]))
   = inr "t1"
   /\ polls (mkProvider (accepted "t1") [processingRound; answered reportAndData])
      = [processingRound] ++ answered reportAndData :: []
   /\ Forall (fun ev => stillProcessing ev = true) [processingRound]
   /\ clock [processingRound] 0 < maxPollingTime
   /\ reply (answered reportAndData) = Resolved reportAndData
   /\ ExaResearchResponse.status reportAndData = Some completed
   /\ ExaResearchResponse.result reportAndData
      = Some (ResearchResult.mk (Some "R") (Some (JObj [("answer", JNum 42)])))
   /\ ResearchResult.report
        (ResearchResult.mk (Some "R") (Some (JObj [("answer", JNum 42)])))
      = Some "R")
  /\ exists io,
       deep_research_exa queryX
         (mkProvider (accepted "t1") [processingRound; answered reportAndData])
       = Some (io, textResult (reportText (Args.query queryX) "R" "t1"))
       /\ reads io = 2%nat.
Proof.
  split.
  - repeat split. by repeat constructor.
  - apply (completed_report_is_returned queryX
             (mkProvider (accepted "t1") [processingRound; answered reportAndData])
             "t1" [processingRound] [] (answered reportAndData) reportAndData
             (ResearchResult.mk (Some "R") (Some (JObj [("answer", JNum 42)]))));
      [reflexivity | reflexivity | by repeat constructor | reflexivity
       | reflexivity | reflexivity | reflexivity | reflexivity].
Defined.

(** X4: when a status read made in time reports [completed] with truthy data
    and no report, or an empty one, the call returns the JSON document of
    the data, without the error flag. *)
Theorem completed_data_is_returned (args : Args.t) (p : Provider) (t : string)
    (pre rest : list PollEvent) (ev : PollEvent) (d : ExaResearchResponse.t)
    (res : ResearchResult.t) (v : Json) :
  submit (submitReply p) = inr t ->
  polls p = pre ++ ev :: rest ->
  Forall (fun ev => stillProcessing ev = true) pre ->
  clock pre 0 < maxPollingTime ->
  reply ev = Resolved d ->
  ExaResearchResponse.status d = Some completed ->
  ExaResearchResponse.result d = Some res ->
  truthy_string (ResearchResult.report res) = false ->
  ResearchResult.data res = Some v ->
  truthy v = true ->
  exists io doc,
    deep_research_exa args p = Some (io, textResult (JSON_stringify doc))
    /\ reads io = S (length pre)
    /\ member "requestId" doc = Some (JStr (ExaResearchResponse.requestId d))
    /\ member "taskId" doc = Some (JStr t)
    /\ member "researchTopic" doc = Some (JStr (Args.query args))
    /\ member "status" doc = Some (JStr "completed")
    /\ member "structuredData" doc = Some v.
Proof.
  intros Hsub Hpolls Hpre Hclock Hev Hst Hres Hrep Hdata Hv.
  destruct (deep_research_exa_stop args p t pre rest ev
              (Completed (ExaResearchResponse.requestId d) (Data v)))
    as [_ Hrun]; try done.
  { unfold roundOutcome. rewrite Hev. by apply (decodeStatus_data d res). }
  exists (Post API_CONFIG.ENDPOINTS.RESEARCH (buildRequest args)
            :: cadence (S (length pre)) (statusUrl t)),
         (toJSON (formattedResults args t (ExaResearchResponse.requestId d) v)).
  split; [exact Hrun |]. split; [apply reads_post_cadence |].
  destruct (formattedResults_members args t (ExaResearchResponse.requestId d) v)
    as (? & ? & ? & ? & _ & _).
  by repeat split.
Qed.

Lemma completed_data_is_returned_witness :
  (submit (submitReply (mkProvider (accepted "t1") [answered dataOnly])) = inr "t1"
   /\ polls (mkProvider (accepted "t1") [answered dataOnly])
      = [] ++ answered dataOnly :: []
   /\ Forall (fun ev => stillProcessing ev = true) []
   /\ clock [] 0 < maxPollingTime
   /\ reply (answered dataOnly) = Resolved dataOnly
   /\ ExaResearchResponse.status dataOnly = Some completed
   /\ ExaResearchResponse.result dataOnly
      = Some (ResearchResult.mk (Some EmptyString) (Some (JObj [("answer", JNum 42)])))
   /\ truthy_string
        (ResearchResult.report
           (ResearchResult.mk (Some EmptyString) (Some (JObj [("answer", JNum 42)]))))
      = false
   /\ ResearchResult.data
        (ResearchResult.mk (Some EmptyString) (Some (JObj [("answer", JNum 42)])))
      = Some (JObj [("answer", JNum 42)])
   /\ truthy (JObj [("answer", JNum 42)]) = true)
  /\ exists io doc,
       deep_research_exa queryX (mkProvider (accepted "t1") [answered dataOnly])
       = Some (io, textResult (JSON_stringify doc))
       /\ reads io = 1%nat
       /\ member "requestId" doc = Some (JStr (ExaResearchResponse.requestId dataOnly))
       /\ member "taskId" doc = Some (JStr "t1")
       /\ member "researchTopic" doc = Some (JStr (Args.query queryX))
       /\ member "status" doc = Some (JStr "completed")
       /\ member "structuredData" doc = Some (JObj [("answer", JNum 42)]).
Proof.
  split.
  - repeat split. constructor.
  - apply (completed_data_is_returned queryX
             (mkProvider (accepted "t1") [answered dataOnly])
             "t1" [] [] (answered dataOnly) dataOnly
             (ResearchResult.mk (Some EmptyString) (Some (JObj [("answer", JNum 42)])))
             (JObj [("answer", JNum 42)]));
      [reflexivity | reflexivity | constructor | reflexivity | reflexivity
       | reflexivity | reflexivity | reflexivity | reflexivity | reflexivity].
Defined.

(** X5: [check_research_status_exa] makes exactly one status read.  Its
    result has the error flag set exactly when nothing could be read: the
    read is rejected, or the response has no body, in which case reading
    the status throws and the catch block reports the engine's message.
    Every response that has a body, a [failed] task included, is reported
    without the flag; on a body that is a response object the handler
    answers as it does when the body is taken for one from the start, and
    on a body that is no object it echoes the task identifier alone. *)
Theorem status_check_error_flag (t : string) (r : Reply StatusCheck.Body) :
  fst (StatusCheck.check_research_status_exa t r) = [Get (statusUrl t)]
  /\ isError (snd (StatusCheck.check_research_status_exa t r))
     = match r with
       | Rejected _ | Resolved (StatusCheck.Missing _) => Some true
       | Resolved StatusCheck.Blank | Resolved (StatusCheck.Parsed _) => None
       end
  /\ match r with
     | Rejected e =>
         StatusCheck.check_research_status_exa t r
         = check_research_status_exa t (Rejected e)
     | Resolved (StatusCheck.Missing typeError) =>
         snd (StatusCheck.check_research_status_exa t r)
         = errorResult ("Status check error: " +:+ typeError)
     | Resolved StatusCheck.Blank =>
         snd (StatusCheck.check_research_status_exa t r)
         = textResult (JSON_stringify (JObj [("taskId", JStr t)]))
     | Resolved (StatusCheck.Parsed d) =>
         StatusCheck.check_research_status_exa t r
         = check_research_status_exa t (Resolved d)
     end.
Proof.
  split; [done |]. split.
  - destruct r as [[msg| |d]|e]; simpl; try done.
    + by destruct (decodeCheck d).
    + apply catchBlock_isError.
  - by destruct r as [[msg| |d]|e].
Qed.

(** A 200 whose body is [null]: the status check reports an error. *)
Example status_check_of_a_null_body :
  StatusCheck.check_research_status_exa "t1"
    (Resolved (StatusCheck.Missing
                 "Cannot read properties of null (reading 'status')"))
  = ([Get "/research/v0/tasks/t1"],
     errorResult
       "Status check error: Cannot read properties of null (reading 'status')").
Proof. reflexivity. Qed.

Lemma decodeCheck_not_completed (d : ExaResearchResponse.t) :
  ExaResearchResponse.status d <> Some completed ->
  decodeCheck d
  = ViewStatus (ExaResearchResponse.status d) (ExaResearchResponse.error d).
Proof.
  unfold decodeCheck. by destruct (ExaResearchResponse.status d) as [[]|].
Qed.

(** X6: for a status other than [completed], the status check answers with
    a JSON document that names the task and passes on the provider's status
    and error as they came; what the provider left out is left out. *)
Theorem status_check_echoes_status_and_error (t : string) (d : ExaResearchResponse.t) :
  ExaResearchResponse.status d <> Some completed ->
  exists doc,
    snd (check_research_status_exa t (Resolved d)) = textResult (JSON_stringify doc)
    /\ member "taskId" doc = Some (JStr t)
    /\ member "status" doc = JStr ∘ statusName <$> ExaResearchResponse.status d
    /\ member "error" doc = JStr <$> ExaResearchResponse.error d.
Proof.
  intros Hst. simpl. rewrite decodeCheck_not_completed by done.
  eexists. split; [reflexivity |].
  by destruct (ExaResearchResponse.status d), (ExaResearchResponse.error d).
Qed.

Lemma status_check_echoes_status_and_error_witness :
  ExaResearchResponse.status (response (Some failed) None (Some "boom")) <> Some completed
  /\ exists doc,
       snd (check_research_status_exa "t1"
              (Resolved (response (Some failed) None (Some "boom"))))
       = textResult (JSON_stringify doc)
       /\ member "taskId" doc = Some (JStr "t1")
       /\ member "status" doc
          = JStr ∘ statusName
              <$> ExaResearchResponse.status (response (Some failed) None (Some "boom"))
       /\ member "error" doc
          = JStr <$> ExaResearchResponse.error (response (Some failed) None (Some "boom")).
Proof.
  split; [done |].
  apply (status_check_echoes_status_and_error "t1"
           (response (Some failed) None (Some "boom"))).
  done.
Defined.

(** X7: the request that [deep_research_exa] submits always carries a
    number of results, never zero (ten when none or zero was asked for), and
    a report flag, false only when [report: false] was passed; it never
    carries an empty date, and the query is the caller's. *)
Theorem research_request_defaults (args : Args.t) :
  (exists n, ExaResearchRequest.numResults (buildRequest args) = Some n
             /\ n <> 0%Z
             /\ (n = 10%Z \/ Args.numResults args = Some n))
  /\ (exists b, ExaResearchRequest.report (buildRequest args) = Some b
                /\ (b = false <-> Args.report args = Some false))
  /\ ExaResearchRequest.startPublishedDate (buildRequest args) <> Some EmptyString
  /\ ExaResearchRequest.endPublishedDate (buildRequest args) <> Some EmptyString
  /\ ExaResearchRequest.query (buildRequest args) = Args.query args.
Proof.
  unfold buildRequest. simpl. repeat split.
  - destruct (Args.numResults args) as [n|].
    + destruct (Z.eqb_spec n 0).
      * exists 10%Z. split; [done |]. split; [lia | by left].
      * exists n. split; [done |]. split; [done | by right].
    + exists 10%Z. split; [done |]. split; [lia | by left].
  - destruct (Args.report args) as [[]|]; eexists; split; try reflexivity;
      split; congruence.
  - by destruct (Args.startPublishedDate args) as [[|]|].
  - by destruct (Args.endPublishedDate args) as [[|]|].
Qed.

(** ** More on the tool registry *)

Lemma filter_nil_of_existsb (should : string -> bool) (tools : list string) :
  existsb should tools = false -> filter (fun t => should t = true) tools = [].
Proof.
  induction tools as [|t tools IH]; [done |]. simpl.
  intros [Ht Hrest]%orb_false_iff.
  rewrite filter_cons, decide_False by congruence. auto.
Qed.

Lemma trackedOf_filter (should : string -> bool) (steps : list (string * list string)) :
  trackedOf should steps = filter (fun t => should t = true) (concat (snd <$> steps)).
Proof.
  unfold trackedOf. induction steps as [|g steps IH]; [done |].
  by rewrite !fmap_cons, !concat_cons, filter_app, IH.
Qed.

(** The search and websets server, read as its table. *)
Lemma search_start_steps (config : Search.Config) :
  Search.start config
  = mkRegistration
      (calledOf (shouldRegisterTool Search.availableTools (Search.enabledTools config))
         searchSteps)
      (trackedOf (shouldRegisterTool Search.availableTools (Search.enabledTools config))
         searchSteps).
Proof.
  unfold Search.start, calledOf, trackedOf.
  set (should := shouldRegisterTool Search.availableTools (Search.enabledTools config)).
  assert (forall id fn,
            (if should id then mkRegistration [fn] [id] else mkRegistration [] [])
            = mkRegistration (if existsb should [id] then [fn] else [])
                (filter (fun t => should t = true) [id])) as Hone.
  { intros id fn. simpl. rewrite orb_false_r, filter_cons, filter_nil.
    destruct (should id) eqn:Hid; [by rewrite decide_True | by rewrite decide_False]. }
  assert (forall tools fn,
            (if existsb should tools
             then mkRegistration [fn] (filter (fun t => should t = true) tools)
             else mkRegistration [] [])
            = mkRegistration (if existsb should tools then [fn] else [])
                (filter (fun t => should t = true) tools)) as Hgroup.
  { intros tools fn. destruct (existsb should tools) eqn:Hex; [done |].
    by rewrite filter_nil_of_existsb. }
  assert ((if should "deep_research_exa" || should "check_research_status_exa"
           then mkRegistration ["registerResearchTool"]
                  ((if should "deep_research_exa" then ["deep_research_exa"] else [])
                   ++ (if should "check_research_status_exa"
                       then ["check_research_status_exa"] else []))
           else mkRegistration [] [])
          = mkRegistration
              (if existsb should ["deep_research_exa"; "check_research_status_exa"]
               then ["registerResearchTool"] else [])
              (filter (fun t => should t = true)
                 ["deep_research_exa"; "check_research_status_exa"])) as Hresearch.
  { simpl. rewrite orb_false_r, !filter_cons, filter_nil.
    destruct (should "deep_research_exa") eqn:Hd,
             (should "check_research_status_exa") eqn:Hc; simpl;
      rewrite ?decide_True, ?decide_False by congruence; done. }
  rewrite !Hone, !Hgroup, Hresearch. reflexivity.
Qed.

(** X8: for every configuration of the search and websets server, the
    tools it records as registered are the keys of its registry that pass
    [shouldRegisterTool], in the order of the registry: a name in
    [enabledTools] that the registry does not have is never registered. *)
Theorem search_registers_the_filtered_registry (config : Search.Config) :
  registeredTools (Search.start config)
  = filter (fun t => shouldRegisterTool Search.availableTools
                       (Search.enabledTools config) t = true)
      (fst <$> Search.registry).
Proof. rewrite search_start_steps. simpl. by rewrite trackedOf_filter. Qed.

Lemma websets_tools_are_the_registry :
  Websets.allWebsetTools ≡ₚ fst <$> Websets.registry.
Proof. apply (bool_decide_unpack _). by vm_compute. Qed.

(** X9: for every list the websets-only server ends up with, a tool is
    recorded as registered exactly when it is a key of the registry and
    passes [shouldRegisterTool]: names the registry does not have are
    passed over. *)
Theorem websets_registers_the_filtered_registry (enabled : option (list string))
    (toolId : string) :
  toolId ∈ registeredTools (Websets.register enabled)
  <-> toolId ∈ fst <$> Websets.registry
      /\ shouldRegisterTool Websets.availableTools enabled toolId = true.
Proof.
  change (registeredTools (Websets.register enabled))
    with (filter (fun t => shouldRegisterTool Websets.availableTools enabled t = true)
            Websets.allWebsetTools).
  rewrite list_elem_of_filter, websets_tools_are_the_registry. tauto.
Qed.

Lemma calledOf_elem (should : string -> bool) (steps : list (string * list string))
    (fn t : string) (tools : list string) :
  (fn, tools) ∈ steps -> t ∈ tools -> should t = true ->
  fn ∈ calledOf should steps.
Proof.
  intros Hstep Ht Hshould. unfold calledOf.
  induction steps as [|g steps IH]; [by apply elem_of_nil in Hstep |].
  rewrite fmap_cons, concat_cons. apply elem_of_app.
  apply elem_of_cons in Hstep as [<-|Hstep]; [left | right; auto].
  simpl. assert (existsb should tools = true) as ->; [| left].
  apply existsb_exists. exists t. split; [by apply list_elem_of_In | done].
Qed.

Lemma toolsOf_registrar (fn : string) (tools : list string) :
  Registers.toolsOf fn = Some tools -> (fn, tools) ∈ Registers.registrars.
Proof.
  unfold Registers.toolsOf. intros H.
  destruct (List.find _ Registers.registrars) as [[fn' tools']|] eqn:Hfind; [| done].
  apply find_some in Hfind as [Hin Heq%String.eqb_eq]. simpl in *.
  inversion H; subst. by apply list_elem_of_In.
Qed.

Lemma serverTools_elem (calls : list string) (fn t : string) (tools : list string) :
  fn ∈ calls -> Registers.toolsOf fn = Some tools -> t ∈ tools ->
  t ∈ Registers.serverTools calls.
Proof.
  intros Hfn Htools Ht. unfold Registers.serverTools.
  induction calls as [|fn' calls IH]; [by apply elem_of_nil in Hfn |].
  simpl. apply elem_of_cons in Hfn as [<-|Hfn].
  - rewrite Htools. simpl. apply elem_of_app. by left.
  - destruct (Registers.toolsOf fn'); [| auto].
    simpl. apply elem_of_app. right. auto.
Qed.

Lemma registrars_are_search_steps :
  Forall (fun g => g ∈ searchSteps) Registers.registrars.
Proof. repeat constructor; apply (bool_decide_unpack _); by vm_compute. Qed.

(** X10: in the search and websets server the filter works by registration
    function, not by tool: when one tool of a function passes
    [shouldRegisterTool], the function is called, and every tool the
    function registers is on the server, named in [enabledTools] or not. *)
Theorem one_tool_registers_all_of_its_function (config : Search.Config)
    (fn t : string) (tools : list string) :
  Registers.toolsOf fn = Some tools ->
  t ∈ tools ->
  shouldRegisterTool Search.availableTools (Search.enabledTools config) t = true ->
  fn ∈ calls (Search.start config)
  /\ (forall t', t' ∈ tools ->
        t' ∈ Registers.serverTools (calls (Search.start config))).
Proof.
  intros Htools Ht Hshould.
  assert (fn ∈ calls (Search.start config)) as Hfn.
  { rewrite search_start_steps. simpl.
    apply (calledOf_elem _ _ fn t tools); [| done | done].
    pose proof registrars_are_search_steps as Hall.
    rewrite Forall_forall in Hall. by apply Hall, toolsOf_registrar. }
  split; [done |]. intros t' Ht'. by apply (serverTools_elem _ fn t' tools).
Qed.

Lemma one_tool_registers_all_of_its_function_witness :
  (Registers.toolsOf "registerResearchTool"
   = Some ["deep_research_exa"; "check_research_status_exa"]
   /\ "deep_research_exa" ∈ ["deep_research_exa"; "check_research_status_exa"]
   /\ shouldRegisterTool Search.availableTools (Search.enabledTools onlyDeepResearch)
        "deep_research_exa" = true)
  /\ ("registerResearchTool" ∈ calls (Search.start onlyDeepResearch)
      /\ (forall t', t' ∈ ["deep_research_exa"; "check_research_status_exa"] ->
            t' ∈ Registers.serverTools (calls (Search.start onlyDeepResearch)))).
Proof.
  split.
  - split; [reflexivity |]. split; [left | by vm_compute].
  - apply (one_tool_registers_all_of_its_function onlyDeepResearch
             "registerResearchTool" "deep_research_exa"
             ["deep_research_exa"; "check_research_status_exa"]);
      [reflexivity | left | by vm_compute].
Defined.

(** With only [deep_research_exa] asked for, the status check is on the
    server as well, though the record of registered tools leaves it out. *)
Example status_check_comes_with_deep_research :
  registeredTools (Search.start onlyDeepResearch) = ["deep_research_exa"]
  /\ Registers.serverTools (calls (Search.start onlyDeepResearch))
     = ["deep_research_exa"; "check_research_status_exa"].
Proof. by vm_compute. Qed.

(** X11: in the websets-only server each registration function is called
    exactly when one of the tools of its flag passes [shouldRegisterTool]:
    the filter on "search" keeps the four search tools of the management
    list, the filter on "item" the three item tools of the core list, so
    [delete_webset_item_exa] counts for the management registration only,
    and [search_webset_items_exa] for the management and the item
    registrations, not for the search registration. *)
Theorem websets_calls_by_flag (enabled : option (list string)) :
  calls (Websets.register enabled)
  = calledOf (shouldRegisterTool Websets.availableTools enabled) websetsSteps.
Proof.
  unfold Websets.register, calledOf, call. simpl.
  by rewrite !orb_false_r, app_nil_r.
Qed.

(** ** The contents tool *)

(** X12: [get_contents_exa] sends no request for more than ten URLs and
    exactly one otherwise; its result is an error result exactly when the
    limit is exceeded, the request is rejected, or the answer has no body
    to read.  An answer without results is reported without the flag. *)
Theorem contents_error_flag (args : Contents.Args.t) (reply : Reply Contents.Body) :
  length (fst (Contents.get_contents_exa args reply))
  = (if (10 <? length (Contents.Args.urls args))%nat then 0 else 1)%nat
  /\ isError (snd (Contents.get_contents_exa args reply))
     = if (10 <? length (Contents.Args.urls args))%nat || unreadable reply
       then Some true else None.
Proof.
  unfold Contents.get_contents_exa.
  destruct (10 <? length (Contents.Args.urls args))%nat; [done |].
  split; [done |]. simpl.
  destruct reply as [[msg| |d]|e]; simpl; try done.
  - by destruct (Contents.ExaContentsResponse.results d).
  - apply catchBlock_isError.
Qed.

(** X13: the request of [get_contents_exa] carries the caller's URLs and
    always has a [text] member: a boolean is passed on as it is, [false]
    included, so text is asked for by default only, when the caller leaves
    [text] out; a text object keeps its [includeHtmlTags] and never carries
    a zero [maxCharacters] (3000 takes its place, as it does when [text] is
    left out).  The request always names a live-crawl mode ([fallback] when
    none was given); a highlights object never carries a zero
    [numSentences] (3 takes its place) nor a falsy [highlightsPerUrl] or
    [query], and sub-pages always carry a maximum. *)
Theorem contents_request_defaults (args : Contents.Args.t) :
  Contents.ExaContentsRequest.urls (Contents.buildRequest args) = Contents.Args.urls args
  /\ match Contents.Args.text args with
     | Some (Contents.Bool b) =>
         Contents.ExaContentsRequest.text (Contents.buildRequest args)
         = Some (Contents.Bool b)
     | Some (Contents.Options o) =>
         exists n,
           Contents.ExaContentsRequest.text (Contents.buildRequest args)
           = Some (Contents.Options
                     (Contents.TextOptions.mk (Some n)
                        (Contents.TextOptions.includeHtmlTags o)))
           /\ n <> 0%Z
           /\ (Contents.TextOptions.maxCharacters o = Some n
               \/ n = 3000%Z
                  /\ (Contents.TextOptions.maxCharacters o = None
                      \/ Contents.TextOptions.maxCharacters o = Some 0%Z))
     | None =>
         Contents.ExaContentsRequest.text (Contents.buildRequest args)
         = Some (Contents.Options (Contents.TextOptions.mk (Some 3000%Z) None))
     end
  /\ (exists l,
        Contents.ExaContentsRequest.livecrawl (Contents.buildRequest args) = Some l
        /\ (l = Contents.fallback \/ Contents.Args.livecrawl args = Some l))
  /\ match Contents.ExaContentsRequest.highlights (Contents.buildRequest args) with
     | Some (Contents.Options o) =>
         (exists n, Contents.HighlightOptions.numSentences o = Some n /\ n <> 0%Z)
         /\ Contents.HighlightOptions.highlightsPerUrl o <> Some 0%Z
         /\ Contents.HighlightOptions.query o <> Some EmptyString
     | Some (Contents.Bool b) => Contents.Args.highlights args = Some (Contents.Bool b)
     | None => Contents.Args.highlights args = None
     end
  /\ match Contents.ExaContentsRequest.subpages (Contents.buildRequest args) with
     | Some sp => exists n, Contents.Subpages.max sp = Some n
     | None => Contents.Args.subpages args = None
     end.
Proof.
  assert (forall x d, d <> 0%Z -> Contents.or_number x d <> 0%Z) as Hor.
  { intros [n|] d Hd; simpl; [| done]. by destruct (Z.eqb_spec n 0). }
  unfold Contents.buildRequest. simpl. split; [done |]. split; [| split; [| split]].
  - destruct (Contents.Args.text args) as [[b|o]|]; simpl; try done.
    eexists. split; [reflexivity |]. split; [by apply Hor |].
    destruct (Contents.TextOptions.maxCharacters o) as [n|]; simpl; [| by right; split; [| left]].
    destruct (Z.eqb_spec n 0) as [->|Hn]; [right; split; [done | by right] | by left].
  - destruct (Contents.Args.livecrawl args) as [l|]; eexists;
      (split; [reflexivity |]); simpl; auto.
  - destruct (Contents.Args.highlights args) as [[b|o]|]; simpl; try done.
    split; [| split].
    + eexists. split; [reflexivity |]. by apply Hor.
    + destruct (Contents.HighlightOptions.highlightsPerUrl o) as [n|]; simpl; [| done].
      destruct (Z.eqb_spec n 0); congruence.
    + by destruct (Contents.HighlightOptions.query o) as [[|]|].
  - destruct (Contents.Args.subpages args) as [sp|]; simpl; [by eexists | done].
Qed.

(** [text: false] is sent as [false]. *)
Example text_false_is_sent :
  Contents.ExaContentsRequest.text
    (Contents.buildRequest
       (Contents.Args.mk ["https://a.example"] (Some (Contents.Bool false))
          None None None None None))
  = Some (Contents.Bool false).
Proof. reflexivity. Qed.

Lemma member_formatResult (i : nat) (r : Contents.ExaContentResult.t) :
  member "index" (Contents.formatResult i r) = Some (JNum (Z.of_nat i + 1))
  /\ member "url" (Contents.formatResult i r)
     = Some (JStr (Contents.ExaContentResult.url r))
  /\ member "status" (Contents.formatResult i r)
     = Some (JStr (Contents.resultStatusName
                     (default Contents.success (Contents.ExaContentResult.status r)))).
Proof.
  unfold Contents.formatResult.
  by destruct (Contents.ExaContentResult.title r).
Qed.

(** X14: the document of [get_contents_exa] counts the results it received
    and lists them in the order received, numbered from 1, each with its
    URL and its status, [success] when the provider gave none. *)
Theorem contents_results_are_numbered (d : Contents.ExaContentsResponse.t)
    (rs : list Contents.ExaContentResult.t) :
  Contents.ExaContentsResponse.results d = Some rs ->
  exists items,
    Contents.render (Resolved (Contents.Parsed d))
    = textResult (JSON_stringify (Contents.formattedResults d rs))
    /\ member "urlsProcessed" (Contents.formattedResults d rs)
       = Some (JNum (Z.of_nat (length rs)))
    /\ member "results" (Contents.formattedResults d rs) = Some (JArr items)
    /\ length items = length rs
    /\ forall (i : nat) (r : Contents.ExaContentResult.t),
         rs !! i = Some r ->
         exists entry,
           items !! i = Some entry
           /\ member "index" entry = Some (JNum (Z.of_nat i + 1))
           /\ member "url" entry = Some (JStr (Contents.ExaContentResult.url r))
           /\ member "status" entry
              = Some (JStr (Contents.resultStatusName
                              (default Contents.success
                                 (Contents.ExaContentResult.status r)))).
Proof.
  intros Hrs. exists (imap Contents.formatResult rs).
  split; [by simpl; rewrite Hrs |]. split; [done |]. split; [done |].
  split; [apply length_imap |].
  intros i r Hi. exists (Contents.formatResult i r).
  split; [by rewrite list_lookup_imap, Hi |]. apply member_formatResult.
Qed.

Lemma contents_results_are_numbered_witness :
  Contents.ExaContentsResponse.results twoResults
  = Some [pageResult "https://a.example" (Some "alpha");
          pageResult "https://b.example" None]
  /\ exists items,
       Contents.render (Resolved (Contents.Parsed twoResults))
       = textResult (JSON_stringify
           (Contents.formattedResults twoResults
              [pageResult "https://a.example" (Some "alpha");
               pageResult "https://b.example" None]))
       /\ member "urlsProcessed"
            (Contents.formattedResults twoResults
               [pageResult "https://a.example" (Some "alpha");
                pageResult "https://b.example" None])
          = Some (JNum (Z.of_nat (length
                    [pageResult "https://a.example" (Some "alpha");
                     pageResult "https://b.example" None])))
       /\ member "results"
            (Contents.formattedResults twoResults
               [pageResult "https://a.example" (Some "alpha");
                pageResult "https://b.example" None])
          = Some (JArr items)
       /\ length items
          = length [pageResult "https://a.example" (Some "alpha");
                    pageResult "https://b.example" None]
       /\ forall (i : nat) (r : Contents.ExaContentResult.t),
            [pageResult "https://a.example" (Some "alpha");
             pageResult "https://b.example" None] !! i = Some r ->
            exists entry,
              items !! i = Some entry
              /\ member "index" entry = Some (JNum (Z.of_nat i + 1))
              /\ member "url" entry = Some (JStr (Contents.ExaContentResult.url r))
              /\ member "status" entry
                 = Some (JStr (Contents.resultStatusName
                                 (default Contents.success
                                    (Contents.ExaContentResult.status r)))).
Proof.
  split; [reflexivity |].
  apply (contents_results_are_numbered twoResults). reflexivity.
Defined.

Lemma status_counts (ss : list Contents.UrlStatus.t) :
  (length (List.filter Contents.isSuccess ss)
   + length (List.filter Contents.isError ss)
   + length (List.filter
               (fun x => negb (Contents.isSuccess x || Contents.isError x)) ss)
   = length ss)%nat.
Proof.
  induction ss as [|s ss IH]; [done |]. simpl.
  unfold Contents.isError, Contents.isSuccess in *.
  destruct (String.eqb_spec (Contents.UrlStatus.status s) "success") as [Hs|Hs].
  - rewrite Hs. simpl. lia.
  - destruct (String.eqb (Contents.UrlStatus.status s) "error"); simpl; lia.
Qed.

(** X15: the status summary is in the document exactly when the provider
    sent statuses.  Its two counts are taken by two separate comparisons of
    the status as sent: an entry whose status is spelled neither [success]
    nor [error] is counted by neither, and no entry by both, so the counts
    fall short of the number of statuses by the number of such entries.
    The error details are the entries counted as errors, one for one, with
    their URLs in the order received. *)
Theorem contents_status_summary_counts (d : Contents.ExaContentsResponse.t)
    (rs : list Contents.ExaContentResult.t) :
  member "statusSummary" (Contents.formattedResults d rs)
  = Contents.statusSummary <$> Contents.ExaContentsResponse.statuses d
  /\ forall ss : list Contents.UrlStatus.t,
       exists (s e : nat) (details : list Json),
         Contents.statusSummary ss
         = JObj [("success", JNum (Z.of_nat s)); ("errors", JNum (Z.of_nat e));
                 ("errorDetails", JArr details)]
         /\ s = length (List.filter
                          (fun x => String.eqb (Contents.UrlStatus.status x) "success") ss)
         /\ e = length (List.filter
                          (fun x => String.eqb (Contents.UrlStatus.status x) "error") ss)
         /\ (s + e
             + length (List.filter
                         (fun x => negb (String.eqb (Contents.UrlStatus.status x) "success"
                                         || String.eqb (Contents.UrlStatus.status x) "error"))
                         ss)
             = length ss)%nat
         /\ length details = e
         /\ member "url" <$> details
            = (fun x => Some (JStr (Contents.UrlStatus.url x)))
              <$> List.filter
                    (fun x => String.eqb (Contents.UrlStatus.status x) "error") ss.
Proof.
  split.
  - unfold Contents.formattedResults.
    by destruct (Contents.ExaContentsResponse.statuses d).
  - intros ss. do 3 eexists. split; [reflexivity |].
    split; [reflexivity |]. split; [reflexivity |].
    split; [apply status_counts |]. split; [by rewrite length_fmap |].
    change (fun x => String.eqb (Contents.UrlStatus.status x) "error")
      with Contents.isError.
    induction (List.filter Contents.isError ss) as [|x l IH]; [done |].
    rewrite !fmap_cons, IH. done.
Qed.

(** A status of another spelling is in neither count: three statuses, one
    success and one error. *)
Example unrecognised_status_is_not_counted :
  Contents.statusSummary
    [Contents.UrlStatus.mk "https://a.example" "success" None;
     Contents.UrlStatus.mk "https://b.example" "pending" None;
     Contents.UrlStatus.mk "https://c.example" "error" (Some "blocked")]
  = JObj [("success", JNum 1); ("errors", JNum 1);
          ("errorDetails",
           JArr [JObj [("url", JStr "https://c.example"); ("error", JStr "blocked")]])].
Proof. reflexivity. Qed.

(** The document for two results and three statuses. *)
Example contents_document :
  Contents.get_contents_exa twoUrls (Resolved (Contents.Parsed twoResults))
  = ([Contents.Post "/contents" (Contents.buildRequest twoUrls)],
     textResult (JSON_stringify
       (JObj [("requestId", JStr "req-2"); ("urlsProcessed", JNum 2);
              ("results",
               JArr [JObj [("index", JNum 1); ("url", JStr "https://a.example");
                           ("status", JStr "success"); ("text", JStr "alpha");
                           ("textLength", JNum 5)];
                     JObj [("index", JNum 2); ("url", JStr "https://b.example");
                           ("status", JStr "success")]]);
              ("statusSummary",
               JObj [("success", JNum 2); ("errors", JNum 1);
                     ("errorDetails",
                      JArr [JObj [("url", JStr "https://c.example");
                                  ("error", JStr "blocked")]])])]))).
Proof. reflexivity. Qed.

(** [maxCharacters: 0] is sent as 3000, and highlights without settings ask
    for three sentences. *)
Example contents_zero_is_replaced :
  Contents.ExaContentsRequest.text (Contents.buildRequest zeroCharacters)
  = Some (Contents.Options (Contents.TextOptions.mk (Some 3000%Z) None))
  /\ Contents.ExaContentsRequest.highlights (Contents.buildRequest zeroCharacters)
     = Some (Contents.Options (Contents.HighlightOptions.mk (Some 3%Z) None None)).
Proof. by split. Qed.

(** ** The item search *)

Lemma fetchAll_pages (w : string) (pre : list Items.Page.t) (last : Items.Page.t)
    (rest : list Items.PageReply) (cursor : option string)
    (acc : list Items.WebsetItem.t) :
  Forall (fun p => Items.Page.hasMore p = true) pre ->
  Items.Page.hasMore last = false ->
  Items.fetchAll w ((Items.Fetched <$> pre) ++ Items.Fetched last :: rest) cursor acc
  = Some (Items.Get (Items.itemsUrl w) (Items.pageParams cursor)
            :: ((fun p => Items.Get (Items.itemsUrl w)
                            (Items.pageParams (Items.Page.nextCursor p))) <$> pre),
          inr (acc ++ itemsOf (pre ++ [last]))).
Proof.
  intros Hpre Hlast. revert cursor acc.
  induction Hpre as [|p pre Hp Hpre IH]; intros cursor acc; simpl.
  - rewrite Hlast. unfold itemsOf. simpl. by rewrite app_nil_r.
  - rewrite Hp, IH. unfold itemsOf. simpl. by rewrite <- (assoc_L (++)).
Qed.

Lemma fetchAll_refused (w : string) (pre : list Items.Page.t) (status : option N)
    (dataError : option string) (message : string) (rest : list Items.PageReply)
    (cursor : option string) (acc : list Items.WebsetItem.t) :
  Forall (fun p => Items.Page.hasMore p = true) pre ->
  Items.fetchAll w ((Items.Fetched <$> pre)
                    ++ Items.Refused status dataError message :: rest) cursor acc
  = Some (Items.Get (Items.itemsUrl w) (Items.pageParams cursor)
            :: ((fun p => Items.Get (Items.itemsUrl w)
                            (Items.pageParams (Items.Page.nextCursor p))) <$> pre),
          inl (Items.RequestFailed status dataError message)).
Proof.
  intros Hpre. revert cursor acc.
  induction Hpre as [|p pre Hp Hpre IH]; intros cursor acc; simpl; [done |].
  by rewrite Hp, IH.
Qed.

(** X16: without filters, [search_webset_items_exa] returns the items of
    every page up to the first one that announces no more, in the order
    received, and counts them all as matching; what the provider would
    answer after that page is never asked for. *)
Theorem item_search_returns_every_page (RegExp : string -> string + (string -> bool))
    (w : string) (pre : list Items.Page.t) (last : Items.Page.t)
    (rest : list Items.PageReply) :
  Forall (fun p => Items.Page.hasMore p = true) pre ->
  Items.Page.hasMore last = false ->
  exists io doc,
    Items.search_webset_items_exa RegExp w None
      ((Items.Fetched <$> pre) ++ Items.Fetched last :: rest)
    = Some (io, textResult (JSON_stringify doc))
    /\ length io = S (length pre)
    /\ member "totalItems" doc = Some (JNum (Z.of_nat (length (itemsOf (pre ++ [last])))))
    /\ member "matchingItems" doc
       = Some (JNum (Z.of_nat (length (itemsOf (pre ++ [last])))))
    /\ member "items" doc = Some (JArr (Items.itemJson <$> itemsOf (pre ++ [last]))).
Proof.
  intros Hpre Hlast. unfold Items.search_webset_items_exa.
  rewrite fetchAll_pages by done. simpl.
  do 2 eexists. split; [reflexivity |].
  split; [exact (f_equal S (length_fmap _ _)) |]. done.
Qed.

Lemma item_search_returns_every_page_witness :
  (Forall (fun p => Items.Page.hasMore p = true) [firstPage]
   /\ Items.Page.hasMore lastPage = false)
  /\ exists io doc,
       Items.search_webset_items_exa literalRegExp "ws1" None
         ((Items.Fetched <$> [firstPage]) ++ Items.Fetched lastPage
            :: [Items.Fetched firstPage])
       = Some (io, textResult (JSON_stringify doc))
       /\ length io = S (length [firstPage])
       /\ member "totalItems" doc
          = Some (JNum (Z.of_nat (length (itemsOf ([firstPage] ++ [lastPage])))))
       /\ member "matchingItems" doc
          = Some (JNum (Z.of_nat (length (itemsOf ([firstPage] ++ [lastPage])))))
       /\ member "items" doc
          = Some (JArr (Items.itemJson <$> itemsOf ([firstPage] ++ [lastPage]))).
Proof.
  split.
  - split; [by repeat constructor | reflexivity].
  - apply (item_search_returns_every_page literalRegExp "ws1" [firstPage] lastPage
             [Items.Fetched firstPage]); [by repeat constructor | reflexivity].
Defined.

(** X17: the page requests of [search_webset_items_exa] follow the
    provider's cursors: the first carries none, each next one carries the
    cursor of the page before it when that is not empty, and every one asks
    for a hundred items; the filters play no part in them. *)
Theorem item_search_follows_the_cursor (RegExp : string -> string + (string -> bool))
    (w : string) (filters : option Items.Filters.t) (pre : list Items.Page.t)
    (last : Items.Page.t) (rest : list Items.PageReply) :
  Forall (fun p => Items.Page.hasMore p = true) pre ->
  Items.Page.hasMore last = false ->
  exists r,
    Items.search_webset_items_exa RegExp w filters
      ((Items.Fetched <$> pre) ++ Items.Fetched last :: rest)
    = Some (pageRequests w pre, r)
    /\ Forall (fun e => match e with
                        | Items.Get url params =>
                            url = Items.itemsUrl w /\ ("limit", "100") ∈ params
                        end) (pageRequests w pre).
Proof.
  intros Hpre Hlast. unfold Items.search_webset_items_exa.
  rewrite fetchAll_pages by done. eexists. split; [reflexivity |].
  assert (forall c, ("limit", "100") ∈ Items.pageParams c) as Hlimit.
  { intros c. unfold Items.pageParams. apply elem_of_app. right. left. }
  unfold pageRequests. constructor; [done |].
  apply Forall_fmap, Forall_forall. by intros p _.
Qed.

Lemma item_search_follows_the_cursor_witness :
  (Forall (fun p => Items.Page.hasMore p = true) [firstPage]
   /\ Items.Page.hasMore lastPage = false)
  /\ exists r,
       Items.search_webset_items_exa literalRegExp "ws1" (Some companies)
         ((Items.Fetched <$> [firstPage]) ++ Items.Fetched lastPage :: [])
       = Some (pageRequests "ws1" [firstPage], r)
       /\ Forall (fun e => match e with
                           | Items.Get url params =>
                               url = Items.itemsUrl "ws1" /\ ("limit", "100") ∈ params
                           end) (pageRequests "ws1" [firstPage]).
Proof.
  split.
  - split; [by repeat constructor | reflexivity].
  - apply (item_search_follows_the_cursor literalRegExp "ws1" (Some companies)
             [firstPage] lastPage []); [by repeat constructor | reflexivity].
Defined.

(** The two requests of that search, and what it returns: the companies. *)
Example item_search_for_companies :
  pageRequests "ws1" [firstPage]
  = [Items.Get "/websets/v0/websets/ws1/items" [("limit", "100")];
     Items.Get "/websets/v0/websets/ws1/items" [("cursor", "c1"); ("limit", "100")]]
  /\ Items.applyFilters literalRegExp (Some companies) [acme; jane; bolt]
     = inr [acme; bolt].
Proof. by split. Qed.

(** X18: a page request that fails ends [search_webset_items_exa] with an
    error result that prints the HTTP status ("unknown" when there is
    none) and the provider's [error], or the message of the error; the
    items of the pages fetched before are not returned, and no further
    page is asked for. *)
Theorem item_search_stops_at_a_refused_page
    (RegExp : string -> string + (string -> bool)) (w : string)
    (filters : option Items.Filters.t) (pre : list Items.Page.t)
    (status : option N) (dataError : option string) (message : string)
    (rest : list Items.PageReply) :
  Forall (fun p => Items.Page.hasMore p = true) pre ->
  Items.search_webset_items_exa RegExp w filters
    ((Items.Fetched <$> pre) ++ Items.Refused status dataError message :: rest)
  = Some (pageRequests w pre,
          errorResult ("Search items error (" +:+ statusCode status +:+ "): "
                       +:+ or_string dataError message)).
Proof.
  intros Hpre. unfold Items.search_webset_items_exa.
  by rewrite fetchAll_refused.
Qed.

Lemma item_search_stops_at_a_refused_page_witness :
  Forall (fun p => Items.Page.hasMore p = true) [firstPage]
  /\ Items.search_webset_items_exa literalRegExp "ws1" None
       ((Items.Fetched <$> [firstPage])
        ++ Items.Refused (Some 429) (Some "Too many requests") "Request failed"
        :: [Items.Fetched lastPage])
     = Some (pageRequests "ws1" [firstPage],
             errorResult ("Search items error (" +:+ statusCode (Some 429) +:+ "): "
                          +:+ or_string (Some "Too many requests") "Request failed")).
Proof.
  split; [by repeat constructor |].
  apply (item_search_stops_at_a_refused_page literalRegExp "ws1" None [firstPage]
           (Some 429) (Some "Too many requests") "Request failed"
           [Items.Fetched lastPage]).
  by repeat constructor.
Defined.

Lemma filter_sublist {A : Type} (f : A -> bool) (l : list A) :
  List.filter f l `sublist_of` l.
Proof.
  induction l as [|x l IH]; simpl; [done |].
  destruct (f x); [by apply sublist_skip | by apply sublist_cons].
Qed.

Lemma elem_of_List_filter {A : Type} (f : A -> bool) (l : list A) (x : A) :
  x ∈ List.filter f l <-> x ∈ l /\ f x = true.
Proof. by rewrite !list_elem_of_In, filter_In. Qed.

(** X19: the filters of [search_webset_items_exa] only take items away:
    what they return is a sub-list of the items fetched, in the same order,
    so [matchingItems] never exceeds [totalItems]. *)
Theorem item_filters_only_remove (RegExp : string -> string + (string -> bool))
    (filters : option Items.Filters.t) (items out : list Items.WebsetItem.t) :
  Items.applyFilters RegExp filters items = inr out ->
  out `sublist_of` items /\ (length out <= length items)%nat.
Proof.
  intros H. assert (out `sublist_of` items) as Hsub;
    [| split; [done | by apply sublist_length]].
  unfold Items.applyFilters in H. destruct filters as [f|]; [| by inversion H].
  set (l1 := match Items.truthy_pattern (Items.Filters.type f) with
             | Some ty => List.filter (Items.typeIs ty) items
             | None => items
             end) in H.
  set (l2 := match Items.Filters.verificationStatus f with
             | Some v => List.filter (Items.verificationIs v) l1
             | None => l1
             end) in H.
  set (l3 := match Items.Filters.hasEnrichedData f with
             | Some want =>
                 List.filter (fun item => if want then Items.hasData item
                                          else negb (Items.hasData item)) l2
             | None => l2
             end) in H.
  assert (l1 `sublist_of` items) as H1.
  { subst l1. destruct (Items.truthy_pattern _); [apply filter_sublist | done]. }
  assert (l2 `sublist_of` l1) as H2.
  { subst l2. destruct (Items.Filters.verificationStatus f);
      [apply filter_sublist | done]. }
  assert (l3 `sublist_of` l2) as H3.
  { subst l3. destruct (Items.Filters.hasEnrichedData f);
      [apply filter_sublist | done]. }
  assert (l3 `sublist_of` items) as H123 by (by repeat (etrans; [eassumption |])).
  clearbody l3. clear H1 H2 H3.
  destruct (Items.truthy_pattern (Items.Filters.urlPattern f)) as [p|].
  - destruct (RegExp p) as [msg|test]; [done |].
    destruct (Items.truthy_pattern (Items.Filters.titlePattern f)) as [q|].
    + destruct (RegExp q) as [msg|test']; [done |]. inversion H; subst.
      etrans; [apply filter_sublist |]. etrans; [apply filter_sublist | done].
    + inversion H; subst. etrans; [apply filter_sublist | done].
  - destruct (Items.truthy_pattern (Items.Filters.titlePattern f)) as [q|].
    + destruct (RegExp q) as [msg|test']; [done |]. inversion H; subst.
      etrans; [apply filter_sublist | done].
    + by inversion H; subst.
Qed.

Lemma item_filters_only_remove_witness :
  Items.applyFilters literalRegExp (Some companies) [acme; jane; bolt] = inr [acme; bolt]
  /\ ([acme; bolt] `sublist_of` [acme; jane; bolt]
      /\ (length [acme; bolt] <= length [acme; jane; bolt])%nat).
Proof.
  split; [reflexivity |].
  apply (item_filters_only_remove literalRegExp (Some companies)). reflexivity.
Defined.

Lemma typeIs_true (ty : string) (x : Items.WebsetItem.t) :
  Items.typeIs ty x = true -> Items.WebsetItem.type x = Items.Value ty.
Proof.
  unfold Items.typeIs. destruct (Items.WebsetItem.type x) as [| |t]; try done.
  by intros ->%String.eqb_eq.
Qed.

Lemma verificationIs_true (v : Items.VerificationStatus) (x : Items.WebsetItem.t) :
  Items.verificationIs v x = true ->
  exists vf, Items.WebsetItem.verification x = Some vf
             /\ Items.Verification.status vf = v.
Proof.
  unfold Items.verificationIs.
  destruct (Items.WebsetItem.verification x) as [vf|]; [| done].
  intros H. exists vf. split; [done |].
  by destruct (Items.Verification.status vf), v.
Qed.

(** X20: every item that [search_webset_items_exa] keeps meets every
    criterion that was given: it is one of the items fetched, its type is
    the type asked for, its verification has the status asked for, it has
    enriched data or has none as asked, and its URL and its title, which
    must not be empty, pass the tests of the patterns. *)
Theorem item_filters_are_all_met (RegExp : string -> string + (string -> bool))
    (f : Items.Filters.t) (items out : list Items.WebsetItem.t)
    (x : Items.WebsetItem.t) :
  Items.applyFilters RegExp (Some f) items = inr out ->
  x ∈ out ->
  x ∈ items
  /\ match Items.truthy_pattern (Items.Filters.type f) with
     | Some ty => Items.WebsetItem.type x = Items.Value ty
     | None => True
     end
  /\ match Items.Filters.verificationStatus f with
     | Some v => exists vf, Items.WebsetItem.verification x = Some vf
                            /\ Items.Verification.status vf = v
     | None => True
     end
  /\ match Items.Filters.hasEnrichedData f with
     | Some want => Items.hasData x = want
     | None => True
     end
  /\ match Items.truthy_pattern (Items.Filters.urlPattern f) with
     | Some p => exists test, RegExp p = inr test
                              /\ test (Items.WebsetItem.url x) = true
     | None => True
     end
  /\ match Items.truthy_pattern (Items.Filters.titlePattern f) with
     | Some p => exists test title,
                   RegExp p = inr test
                   /\ Items.WebsetItem.title x = Items.Value title
                   /\ title <> EmptyString
                   /\ test title = true
     | None => True
     end.
Proof.
  intros H Hx. unfold Items.applyFilters in H.
  set (l1 := match Items.truthy_pattern (Items.Filters.type f) with
             | Some ty => List.filter (Items.typeIs ty) items
             | None => items
             end) in H.
  set (l2 := match Items.Filters.verificationStatus f with
             | Some v => List.filter (Items.verificationIs v) l1
             | None => l1
             end) in H.
  set (l3 := match Items.Filters.hasEnrichedData f with
             | Some want =>
                 List.filter (fun item => if want then Items.hasData item
                                          else negb (Items.hasData item)) l2
             | None => l2
             end) in H.
  assert (x ∈ l3
          /\ match Items.truthy_pattern (Items.Filters.urlPattern f) with
             | Some p => exists test, RegExp p = inr test
                                      /\ test (Items.WebsetItem.url x) = true
             | None => True
             end
          /\ match Items.truthy_pattern (Items.Filters.titlePattern f) with
             | Some p => exists test title,
                           RegExp p = inr test
                           /\ Items.WebsetItem.title x = Items.Value title
                           /\ title <> EmptyString
                           /\ test title = true
             | None => True
             end) as (H3 & Hurl & Htitle).
  { clearbody l3. clear l1 l2.
    assert (forall test l,
              x ∈ List.filter
                    (fun item => match Items.WebsetItem.title item with
                                 | Items.Value (String c r) => test (String c r)
                                 | _ => false
                                 end) l ->
              x ∈ l /\ exists title, Items.WebsetItem.title x = Items.Value title
                                     /\ title <> EmptyString /\ test title = true)
      as Htitled.
    { intros test l [Hl Ht]%elem_of_List_filter. split; [done |].
      destruct (Items.WebsetItem.title x) as [| |[|c r]]; try done.
      by exists (String c r). }
    destruct (Items.truthy_pattern (Items.Filters.urlPattern f)) as [p|];
      [destruct (RegExp p) as [msg|test] eqn:Hp; [done |] |];
      (destruct (Items.truthy_pattern (Items.Filters.titlePattern f)) as [q|];
       [destruct (RegExp q) as [msg'|test'] eqn:Hq; [done |] |]);
      inversion H; subst; clear H.
    - apply Htitled in Hx as [[Hx Hu]%elem_of_List_filter (title & ? & ? & ?)].
      split; [done |]. split; [by exists test | by exists test', title].
    - apply elem_of_List_filter in Hx as [Hx Hu]. split; [done |].
      split; [by exists test | done].
    - apply Htitled in Hx as [Hx (title & ? & ? & ?)].
      split; [done |]. split; [done | by exists test', title].
    - done. }
  assert (x ∈ l2 /\ match Items.Filters.hasEnrichedData f with
                    | Some want => Items.hasData x = want
                    | None => True
                    end) as (H2 & Hdata).
  { subst l3. destruct (Items.Filters.hasEnrichedData f) as [want|]; [| done].
    apply elem_of_List_filter in H3 as [H3 Hw]. split; [done |].
    by destruct want, (Items.hasData x). }
  assert (x ∈ l1 /\ match Items.Filters.verificationStatus f with
                    | Some v => exists vf, Items.WebsetItem.verification x = Some vf
                                           /\ Items.Verification.status vf = v
                    | None => True
                    end) as (H1 & Hverified).
  { subst l2. destruct (Items.Filters.verificationStatus f) as [v|]; [| done].
    apply elem_of_List_filter in H2 as [H2 Hv]. split; [done |].
    by apply verificationIs_true. }
  assert (x ∈ items /\ match Items.truthy_pattern (Items.Filters.type f) with
                       | Some ty => Items.WebsetItem.type x = Items.Value ty
                       | None => True
                       end) as (H0 & Htype).
  { subst l1. destruct (Items.truthy_pattern (Items.Filters.type f)) as [ty|]; [| done].
    apply elem_of_List_filter in H1 as [H1 Hty]. split; [done |].
    by apply typeIs_true. }
  done.
Qed.

Lemma item_filters_are_all_met_witness :
  (Items.applyFilters literalRegExp (Some companies) [acme; jane; bolt]
   = inr [acme; bolt]
   /\ bolt ∈ [acme; bolt])
  /\ (bolt ∈ [acme; jane; bolt]
      /\ match Items.truthy_pattern (Items.Filters.type companies) with
         | Some ty => Items.WebsetItem.type bolt = Items.Value ty
         | None => True
         end
      /\ match Items.Filters.verificationStatus companies with
         | Some v => exists vf, Items.WebsetItem.verification bolt = Some vf
                                /\ Items.Verification.status vf = v
         | None => True
         end
      /\ match Items.Filters.hasEnrichedData companies with
         | Some want => Items.hasData bolt = want
         | None => True
         end
      /\ match Items.truthy_pattern (Items.Filters.urlPattern companies) with
         | Some p => exists test, literalRegExp p = inr test
                                  /\ test (Items.WebsetItem.url bolt) = true
         | None => True
         end
      /\ match Items.truthy_pattern (Items.Filters.titlePattern companies) with
         | Some p => exists test title,
                       literalRegExp p = inr test
                       /\ Items.WebsetItem.title bolt = Items.Value title
                       /\ title <> EmptyString
                       /\ test title = true
         | None => True
         end).
Proof.
  split.
  - split; [reflexivity | right; left].
  - apply (item_filters_are_all_met literalRegExp companies [acme; jane; bolt]
             [acme; bolt] bolt); [reflexivity | right; left].
Defined.

(** A pattern that does not compile is found out only after every page was
    fetched: the call ends with an error result. *)
Example item_search_with_a_broken_pattern :
  Items.search_webset_items_exa literalRegExp "ws1"
    (Some (Items.Filters.mk None None None (Some "(") None))
    [Items.Fetched firstPage; Items.Fetched lastPage]
  = Some (pageRequests "ws1" [firstPage],
          errorResult
            "Search items error: Invalid regular expression: /(/: Unterminated group").
Proof. reflexivity. Qed.

(** ** No tool is registered twice *)

Lemma calledOf_sublist (should : string -> bool) (steps : list (string * list string)) :
  calledOf should steps `sublist_of` fst <$> steps.
Proof.
  unfold calledOf. induction steps as [|g steps IH]; [done |].
  rewrite !fmap_cons, concat_cons.
  destruct (existsb should (snd g)); simpl; [by apply sublist_skip | by apply sublist_cons].
Qed.

Lemma serverTools_sublist (calls calls' : list string) :
  calls `sublist_of` calls' ->
  Registers.serverTools calls `sublist_of` Registers.serverTools calls'.
Proof.
  unfold Registers.serverTools. induction 1 as [|fn l l' _ IH|fn l l' _ IH]; simpl.
  - done.
  - destruct (Registers.toolsOf fn); simpl; [by apply sublist_app | done].
  - destruct (Registers.toolsOf fn); simpl; [| done].
    by apply sublist_inserts_l.
Qed.

(** X21: for every configuration, the search and websets server calls each
    registration function at most once, and the tools that the functions
    of these sources put on the server are all different: no tool name is
    registered a second time. *)
Theorem search_registers_no_tool_twice (config : Search.Config) :
  NoDup (calls (Search.start config))
  /\ NoDup (Registers.serverTools (calls (Search.start config))).
Proof.
  rewrite search_start_steps. simpl.
  pose proof (calledOf_sublist
                (shouldRegisterTool Search.availableTools (Search.enabledTools config))
                searchSteps) as Hsub.
  split.
  - eapply sublist_NoDup; [| exact Hsub].
    apply (bool_decide_unpack _). by vm_compute.
  - eapply sublist_NoDup; [| exact (serverTools_sublist _ _ Hsub)].
    apply (bool_decide_unpack _). by vm_compute.
Qed.
